(** * auto_image_installer: a shallow embedding

    The program is [src/usr/libexec/vyos/op_mode/auto_image_installer.py],
    the non-interactive image installer of the VyOS customisation.  The
    script is embedded as Rocq functions over an explicit world: pure
    helpers are plain functions, the two workflows ([install_image],
    [add_image]) and the entry point are written in a small state and
    exception monad, one Rocq line per source statement. *)

From Stdlib Require Import ZArith Lia List Ascii Floats.SpecFloat.
From stdpp Require Import base list strings pretty.

Open Scope string_scope.
Open Scope nat_scope.

(** ** Image names and collision resolution (add_image, lines 553-559) *)

Module Naming.

(** [f'{new_image_name}.{counter}'] *)
Definition suffixed (new_image_name : string) (counter : nat) : string :=
  new_image_name +:+ "." +:+ pretty counter.

(** The [while] loop of lines 557-558.  Python integers are unbounded, so
    the counter is a [nat]; the loop is given fuel, [None] standing for a
    loop that has not stopped within it. *)
Fixpoint suffix_loop (fuel : nat) (installed_images : list string)
    (new_image_name : string) (counter : nat) : option nat :=
  match fuel with
  | O => None
  | S fuel' =>
      if bool_decide (suffixed new_image_name counter ∈ installed_images)
      then suffix_loop fuel' installed_images new_image_name (S counter)
      else Some counter
  end.

(** Lines 555-559 with an explicit amount of fuel for the loop. *)
Definition resolve_name_fuel (fuel : nat) (installed_images : list string)
    (new_image_name : string) : option string :=
  if bool_decide (new_image_name ∈ installed_images) then
    match suffix_loop fuel installed_images new_image_name 1 with
    | Some counter => Some (suffixed new_image_name counter)
    | None => None
    end
  else Some new_image_name.

(** Lines 555-559 as the workflow uses them.  One more round than there
    are installed images is always enough ([suffix_loop_enough_fuel]
    below), so the default is never taken. *)
Definition resolve_name (installed_images : list string)
    (new_image_name : string) : string :=
  default new_image_name
    (resolve_name_fuel (S (length installed_images)) installed_images
       new_image_name).

End Naming.

(** ** Python values *)

Module Py.

Definition quot : string := String (Ascii.ascii_of_nat 34) EmptyString.
Definition nl : string := String (Ascii.ascii_of_nat 10) EmptyString.

(** The exceptions the script distinguishes.  [Exception msg] stands for
    any instance of a subclass of [Exception], [msg] being its [str()];
    [SystemExit] and [KeyboardInterrupt] derive from [BaseException] only,
    so that [except Exception] lets them through. *)
Inductive exn :=
| KeyboardInterrupt
| SystemExit (arg : option string)
| Exception (msg : string).

(** [sys.exit()] ends the process with status 0, [sys.exit('text')] prints
    the text on stderr and ends it with status 1. *)
Definition exit_status (e : exn) : Z :=
  match e with
  | SystemExit None => 0
  | SystemExit (Some _) => 1
  | Exception _ => 1
  | KeyboardInterrupt => 130
  end%Z.

(** Truth value of an optional string ([None] and [''] are false). *)
Definition truthy_str (s : option string) : bool :=
  match s with
  | Some (String _ _) => true
  | _ => false
  end.

(** [str] of an optional string inside an f-string. *)
Definition str_opt (s : option string) : string := default "None" s.

(** *** Floats

    A Python [float] is an IEEE 754 binary64 number: the Standard Library's
    [spec_float] with its specification of the arithmetic. *)

Definition float := spec_float.
Definition prec : Z := 53.
Definition emax : Z := 1024.

Definition fmul : float → float → float := SFmul prec emax.

(** [float(1024**3)], the right operand of [size * 1024**3]. *)
Definition float_2_30 : float := S754_finite false (2 ^ 52) (-22).

(** Truth value of a float: only the zeros are false. *)
Definition truthy_float (x : float) : bool :=
  match x with
  | S754_zero _ => false
  | _ => true
  end.

(** [int(x)]: truncation towards zero; infinities and NaN raise
    ([OverflowError], [ValueError], both subclasses of [Exception]). *)
Definition int_of_float (x : float) : exn + Z :=
  match x with
  | S754_zero _ => inr 0%Z
  | S754_infinity _ => inl (Exception "cannot convert float infinity to integer")
  | S754_nan => inl (Exception "cannot convert float NaN to integer")
  | S754_finite s m e =>
      let a := (if 0 <=? e then Z.pos m * 2 ^ e else Z.pos m / 2 ^ (- e))%Z in
      inr (if s then (- a)%Z else a)
  end.

(** *** Paths *)

(** The last component of a path. *)
Fixpoint basename_from (acc : string) (s : string) : string :=
  match s with
  | EmptyString => acc
  | String c rest =>
      if Ascii.eqb c "/"%char then basename_from "" rest
      else basename_from (acc +:+ String c "") rest
  end.

Definition basename : string → string := basename_from "".

(** [Path(p).match(prefix + '*')] for a literal prefix: the file name
    starts with the prefix. *)
Definition name_matches (prefix name : string) : bool :=
  String.prefix prefix name.

End Py.

(** ** The world the script runs in *)

Module Sys.
Import Py.

Inductive PartitionType := EFI | LINUX.

(** The state-changing primitives the script calls in its collaborators
    ([vyos.system.disk], [vyos.system.grub], [vyos.remote], [pathlib],
    [shutil], [os]), with the arguments of the call. *)
Inductive ext_call :=
| DiskCleanup (drive : string)
| ParttableCreate (drive : string) (table : string)
| PartitionCreate (drive : string) (size : Z) (ptype : PartitionType)
| FilesystemCreate (partition : string) (fsystem : string)
| PartitionMount (partition : string) (path : string)
    (extra : option (string * bool))
| PartitionUmount (partition : string)
| Mkdir (path : string)
| Copy (src dst : string)
| Unlink (path : string)
| Rmtree (path : string)
| GrubInstall (drive boot_dir efi_dir : string)
| GrubSetConsoleType (console_type root_dir : string)
| GrubVersionAdd (image_name root_dir : string)
| GrubSetDefault (image_name root_dir : string)
| WriteFile (path content : string)
| Sync
| Download (url dst : string) (vrf : option string)
    (username password : string) (progressbar : bool).

(** What may go wrong in a primitive: the user interrupts it, or it fails
    with an exception whose text is [msg]. *)
Inductive fault := Interrupt | Failure (msg : string).

Inductive node := File | Dir.

(** Version data ([get_version_data()], or the [version.json] of an
    image), reduced to the keys the script or the specification names. *)
Record VersionData := {
  vd_version : option string;
  vd_architecture : option string;
  vd_flavor : option string;
  vd_memory_total : option Z
}.

(** One entry of [disk.parttable_partitions_list(device)]. *)
Record Partition := {
  part_name : option string;
  part_disk : option string
}.

(** What the script reads and never changes, the answers of the two
    functions of Python's library that read the image path among them.
    [oracle n c] says how the [n]-th primitive call of the run ends when
    it is the call [c]. *)
Record Env := {
  is_live_boot : bool;
  unsaved_commits : bool;
  get_version_data : VersionData;
  disks_size : list string;
  disk_size : string → Z;
  partition_path : string → Z → PartitionType → string;
  device_list : list string;
  parttable_partitions_list : string → list Partition;
  disk_find_persistence : option string;
  get_images : list string;
  get_default_image_name : string → string;
  linux_context_hash : string → string;
  (** [urlparse(url).scheme] of [urllib.parse]: the scheme of [url],
      empty when it has none, or the text of the [ValueError] the parser
      raises on a URL it rejects *)
  urlparse_scheme : string → string + string;
  (** [str(Path(p))] of [pathlib]: the path as [Path] writes it *)
  path_str : string → string;
  (** contents of [live/version.json] under the source mount point,
      [None] when the file is absent *)
  iso_version_json : option VersionData;
  (** entries (name, is a regular file) of the [live] directory under the
      source mount point, [None] when the directory is absent *)
  rootfs_src_entries : option (list (string * bool));
  oracle : nat → ext_call → option fault
}.

(** One printed line.  The advisory of [ask_root_size] is kept with its
    argument rather than rendered, its text holding a rounded float. *)
Inductive line :=
| Text (s : string)
| InvalidRootSize (available_space : Z).

Record World := {
  env : Env;
  (** number of primitive calls made so far *)
  clock : nat;
  (** mount points in use, most recent first *)
  mounted : list string;
  (** paths that exist outside the source mount point *)
  fs : list (string * node);
  (** bootloader configuration: default image, registered versions and
      console type, each per root directory, most recent first *)
  grub_default : list (string * string);
  grub_versions : list (string * string);
  grub_console : list (string * string);
  (** primitive calls that succeeded, oldest first *)
  trace : list ext_call;
  (** printed lines, oldest first *)
  output : list line
}.

Definition set_clock (n : nat) (w : World) : World :=
  {| env := env w; clock := n; mounted := mounted w; fs := fs w;
     grub_default := grub_default w; grub_versions := grub_versions w;
     grub_console := grub_console w; trace := trace w; output := output w |}.

Definition set_mounted (m : list string) (w : World) : World :=
  {| env := env w; clock := clock w; mounted := m; fs := fs w;
     grub_default := grub_default w; grub_versions := grub_versions w;
     grub_console := grub_console w; trace := trace w; output := output w |}.

Definition set_fs (f : list (string * node)) (w : World) : World :=
  {| env := env w; clock := clock w; mounted := mounted w; fs := f;
     grub_default := grub_default w; grub_versions := grub_versions w;
     grub_console := grub_console w; trace := trace w; output := output w |}.

Definition set_grub_default (d : list (string * string)) (w : World) : World :=
  {| env := env w; clock := clock w; mounted := mounted w; fs := fs w;
     grub_default := d; grub_versions := grub_versions w;
     grub_console := grub_console w; trace := trace w; output := output w |}.

Definition set_grub_versions (v : list (string * string)) (w : World) : World :=
  {| env := env w; clock := clock w; mounted := mounted w; fs := fs w;
     grub_default := grub_default w; grub_versions := v;
     grub_console := grub_console w; trace := trace w; output := output w |}.

Definition set_grub_console (c : list (string * string)) (w : World) : World :=
  {| env := env w; clock := clock w; mounted := mounted w; fs := fs w;
     grub_default := grub_default w; grub_versions := grub_versions w;
     grub_console := c; trace := trace w; output := output w |}.

Definition set_trace (t : list ext_call) (w : World) : World :=
  {| env := env w; clock := clock w; mounted := mounted w; fs := fs w;
     grub_default := grub_default w; grub_versions := grub_versions w;
     grub_console := grub_console w; trace := t; output := output w |}.

Definition set_output (o : list line) (w : World) : World :=
  {| env := env w; clock := clock w; mounted := mounted w; fs := fs w;
     grub_default := grub_default w; grub_versions := grub_versions w;
     grub_console := grub_console w; trace := trace w; output := o |}.

(** *** The file system and the mount table *)

Fixpoint lookup_path (p : string) (f : list (string * node)) : option node :=
  match f with
  | [] => None
  | (q, k) :: rest => if String.eqb q p then Some k else lookup_path p rest
  end.

Definition path_exists (p : string) (w : World) : bool :=
  match lookup_path p (fs w) with Some _ => true | None => false end.

Definition path_is_file (p : string) (w : World) : bool :=
  match lookup_path p (fs w) with Some File => true | _ => false end.

Definition add_node (p : string) (k : node) (f : list (string * node))
    : list (string * node) :=
  match lookup_path p f with
  | Some _ => f
  | None => (p, k) :: f
  end.

(** [shutil.copy(src, dst)] writes into [dst] when it is a directory. *)
Definition copy_target (src dst : string) (f : list (string * node)) : string :=
  match lookup_path dst f with
  | Some Dir => dst +:+ "/" +:+ basename src
  | _ => dst
  end.

Definition remove_path (p : string) (f : list (string * node))
    : list (string * node) :=
  List.filter (λ e, negb (String.eqb (fst e) p)) f.

Definition remove_tree (p : string) (f : list (string * node))
    : list (string * node) :=
  List.filter
    (λ e, negb (String.eqb (fst e) p || String.prefix (p +:+ "/") (fst e))) f.

Fixpoint remove_first (mp : string) (m : list string) : list string :=
  match m with
  | [] => []
  | x :: rest => if String.eqb x mp then rest else x :: remove_first mp rest
  end.

Fixpoint mount_count (mp : string) (m : list string) : nat :=
  match m with
  | [] => 0
  | x :: rest => (if String.eqb x mp then 1 else 0) + mount_count mp rest
  end.

(** *** What a primitive does when it succeeds

    Modelled from the spec: the collaborators are outside the repository;
    section 6 of the specification lists them (mount, unmount, bootloader
    registration and default selection, download to a temporary
    location).  Primitives whose effect no property reads (partitioning,
    formatting, bootloader installation, sync) only enter the trace.
    Removing a tree succeeds even when a mount point lies inside it, the
    reading most favourable to the script. *)
Definition call_effect (c : ext_call) (w : World) : World :=
  match c with
  | PartitionMount _ path _ => set_mounted (path :: mounted w) w
  | PartitionUmount mp => set_mounted (remove_first mp (mounted w)) w
  | Mkdir p => set_fs (add_node p Dir (fs w)) w
  | Copy src dst => set_fs (add_node (copy_target src dst (fs w)) File (fs w)) w
  | Unlink p => set_fs (remove_path p (fs w)) w
  | Rmtree p => set_fs (remove_tree p (fs w)) w
  | WriteFile p _ => set_fs (add_node p File (fs w)) w
  | Download _ dst _ _ _ _ => set_fs (add_node dst File (fs w)) w
  | GrubSetDefault image_name root_dir =>
      set_grub_default ((root_dir, image_name) :: grub_default w) w
  | GrubVersionAdd image_name root_dir =>
      set_grub_versions ((root_dir, image_name) :: grub_versions w) w
  | GrubSetConsoleType console_type root_dir =>
      set_grub_console ((root_dir, console_type) :: grub_console w) w
  | _ => w
  end.

(** Unmounting what is not mounted fails, whatever the oracle says. *)
Definition call_refused (c : ext_call) (w : World) : option string :=
  match c with
  | PartitionUmount mp =>
      if bool_decide (mp ∈ mounted w) then None
      else Some ("umount: " +:+ mp +:+ ": not mounted.")
  | _ => None
  end.

(** The Default Pointer of the bootloader configuration under a root. *)
Fixpoint assoc (k : string) (l : list (string * string)) : option string :=
  match l with
  | [] => None
  | (k', v) :: rest => if String.eqb k' k then Some v else assoc k rest
  end.

Definition default_pointer (root_dir : string) (w : World) : option string :=
  assoc root_dir (grub_default w).

End Sys.

(** ** The monad of the script: state and exceptions *)

Module Run.
Import Py Sys.

Inductive result (A : Type) :=
| Ret (a : A)
| Raise (e : exn).
Arguments Ret {A} a.
Arguments Raise {A} e.

Definition M (A : Type) : Type := World → result A * World.

Global Instance M_ret : MRet M := λ A a w, (Ret a, w).

Global Instance M_bind : MBind M := λ A B f m w,
  match m w with
  | (Ret a, w') => f a w'
  | (Raise e, w') => (Raise e, w')
  end.

Definition raise {A} (e : exn) : M A := λ w, (Raise e, w).

(** [sys.exit(arg)] *)
Definition exit {A} (arg : option string) : M A := raise (SystemExit arg).

Definition print (l : line) : M unit :=
  λ w, (Ret tt, set_output (output w ++ [l]) w).

(** Reading the world.  Queries of the collaborators ([is_live_boot],
    [unsaved_commits], [get_images], [Path.exists], ...) are total reads:
    only the state-changing primitives go through the oracle. *)
Definition query {A} (f : World → A) : M A := λ w, (Ret (f w), w).

Definition ask {A} (f : Env → A) : M A := query (λ w, f (env w)).

(** A primitive call: the oracle decides at the current clock whether it
    is interrupted or fails; otherwise it takes effect and is traced. *)
Definition call (c : ext_call) : M unit := λ w,
  let w1 := set_clock (S (clock w)) w in
  match oracle (env w) (clock w) c with
  | Some Interrupt => (Raise KeyboardInterrupt, w1)
  | Some (Failure msg) => (Raise (Exception msg), w1)
  | None =>
      match call_refused c w1 with
      | Some msg => (Raise (Exception msg), w1)
      | None => (Ret tt, set_trace (trace w1 ++ [c]) (call_effect c w1))
      end
  end.

(** [for x in l: body(x)] *)
Fixpoint for_each {A} (l : list A) (body : A → M unit) : M unit :=
  match l with
  | [] => mret tt
  | x :: rest => body x;; for_each rest body
  end.

(** [try: body  except Exception as e: handler(e)] *)
Definition try_except {A} (body : M A) (handler : string → M A) : M A := λ w,
  match body w with
  | (Raise (Exception msg), w') => handler msg w'
  | other => other
  end.

(** [try: body  finally: final]: an exception of [final] replaces the
    outcome of [body]. *)
Definition try_finally {A} (body : M A) (final : M unit) : M A := λ w,
  match body w with
  | (r, w') =>
      match final w' with
      | (Ret _, w'') => (r, w'')
      | (Raise e, w'') => (Raise e, w'')
      end
  end.

(** [try: body  except KeyboardInterrupt: on_interrupt
    except Exception as err: on_error(err)] *)
Definition try_except_interrupt {A} (body : M A) (on_interrupt : M A)
    (on_error : string → M A) : M A := λ w,
  match body w with
  | (Raise KeyboardInterrupt, w') => on_interrupt w'
  | (Raise (Exception msg), w') => on_error msg w'
  | other => other
  end.

End Run.

(** ** The script *)

Module Installer.
Import Py Sys Run.

Definition MSG_ERR_NOT_LIVE : string :=
  "The system is already installed. Please use " +:+ quot +:+
  "add system image" +:+ quot +:+ " instead.".
Definition MSG_ERR_LIVE : string :=
  "The system is in live-boot mode. Please use " +:+ quot +:+
  "install image" +:+ quot +:+ " instead.".
Definition MSG_ERR_UNSAVED_COMMITS : string :=
  "There are unsaved changes to the configuration. Either save or revert before upgrade.".
Definition MSG_ERR_NO_DISK : string :=
  "No suitable disk was found. There must be at least one disk of 2GB or greater size.".
Definition MSG_ERR_ARCHITECTURE_MISMATCH (current new : string) : string :=
  "The current architecture is " +:+ quot +:+ current +:+ quot +:+
  ", the new image is for " +:+ quot +:+ new +:+ quot +:+
  ". Upgrading to a different image architecture will break your system.".
Definition MSG_ERR_FLAVOR_MISMATCH (current new : string) : string :=
  "The current image flavor is " +:+ quot +:+ current +:+ quot +:+
  ", the new image is " +:+ quot +:+ new +:+ quot +:+
  ". Upgrading to a non-matching flavor can have unpredictable consequences.".
Definition MSG_WARN_FLAVOR_MISMATCH (current new : string) : string :=
  "The current image flavor is " +:+ quot +:+ current +:+ quot +:+
  ", the new image is " +:+ quot +:+ new +:+ quot +:+
  ". Proceeding anyway because --force option was specified.".
Definition MSG_INFO_INSTALL_WELCOME : string :=
  "Welcome to VyOS installation!" +:+ nl +:+
  "This command will install VyOS to your permanent storage.".
Definition MSG_INFO_INSTALL_SUCCESS : string :=
  "The image installed successfully; please reboot now.".
Definition MSG_INFO_INSTALL_DISK_CONFIRM : string :=
  "Installation will delete all data on the drive. Continue?".
Definition MSG_INFO_INSTALL_PARTITONING : string :=
  "Creating partition table...".
Definition MSG_WARN_CONSOLE_TYPE_INVALID : string :=
  "Invalid console type. Using default KVM console.".
Definition MSG_LOWMEM_WARNING : string :=
  "Your system has less than 4GB of RAM, installation may fail if you continue. Please consider closing other programs to free up memory.".
Definition CONST_MIN_DISK_SIZE : Z := 2147483648.
Definition CONST_MIN_ROOT_SIZE : Z := 1610612736.

Definition DIR_ISO_MOUNT : string := "/mnt/iso".
Definition DIR_INSTALLATION : string := "/mnt/installation".
Definition DIR_ROOTFS_SRC : string := DIR_ISO_MOUNT +:+ "/live".
Definition DIR_ROOTFS_DST : string := DIR_INSTALLATION +:+ "/boot".
Definition FILE_ROOTFS_SRC : string := DIR_ROOTFS_SRC +:+ "/filesystem.squashfs".

(** lines 130-160 *)
Definition cleanup (mounts remove_items : list string) : M unit :=
  print (Text "Cleaning up");;
  (* clean up installation directory by default *)
  let remove_items :=
    match remove_items with [] => [DIR_INSTALLATION] | _ => remove_items end in
  (* perform unmounts *)
  for_each mounts (λ mount,
    try_except (call (PartitionUmount mount))
      (λ err, print (Text ("Failed to umount " +:+ mount +:+ ": " +:+ err))));;
  (* remove items *)
  for_each remove_items (λ remove_item,
    try_except
      (present ← query (path_exists remove_item);
       if present : bool then
         is_file ← query (path_is_file remove_item);
         if is_file : bool then call (Unlink remove_item)
         else call (Rmtree remove_item)
       else mret tt)
      (λ err, print (Text ("Failed to remove " +:+ remove_item +:+ ": " +:+ err)))).

(** lines 175-184: [int(size * 1024**3)] *)
Definition gb_to_bytes (size : float) : M Z :=
  match int_of_float (fmul size float_2_30) with
  | inl e => raise e
  | inr n => mret n
  end.

(** lines 187-198 *)
Fixpoint persistence_in (partitions : list Partition) : option (option string) :=
  match partitions with
  | [] => None
  | partition :: rest =>
      if bool_decide (part_name partition = Some "persistence")
      then Some (part_disk partition)
      else persistence_in rest
  end.

Fixpoint persistence_among (e : Env) (devices : list string) : option string :=
  match devices with
  | [] => None
  | device :: rest =>
      match persistence_in (parttable_partitions_list e device) with
      | Some found => found
      | None => persistence_among e rest
      end
  end.

Definition find_persistence : M (option string) :=
  ask (λ e, persistence_among e (device_list e)).

(** lines 239-261 *)
Definition ask_single_disk (disks_available : list string) (no_prompt : bool)
    (target_disk : option string) : M string :=
  let first : M string :=
    match disks_available with
    | d :: _ => mret d
    | [] => raise (Exception "list index out of range")
    end in
  if no_prompt then
    disk_selected ←
      (if truthy_str target_disk
          && bool_decide (default "" target_disk ∈ disks_available)
       then mret (default "" target_disk)
       else first);
    print (Text ("Using disk: " +:+ disk_selected));;
    mret disk_selected
  else
    (* Non-interactive fallback *)
    first.

(** lines 264-287 *)
Definition ask_root_size (available_space : Z) (no_prompt : bool)
    (root_size_gb : option float) : M Z :=
  if no_prompt then
    match root_size_gb with
    | Some size =>
        if truthy_float size then
          root_size ← gb_to_bytes size;
          if ((root_size <? CONST_MIN_ROOT_SIZE) || (root_size >? available_space))%Z
          then
            print (InvalidRootSize available_space);;
            mret available_space
          else mret root_size
        else
          (* Use all available space by default *)
          mret available_space
    | None => mret available_space
    end
  else
    (* Non-interactive fallback *)
    mret available_space.

(** [disk.partition_create] returns the path of the new partition. *)
Definition disk_partition_create (drive : string) (size : Z)
    (ptype : PartitionType) : M string :=
  call (PartitionCreate drive size ptype);;
  ask (λ e, partition_path e drive size ptype).

(** Modelled from the spec: [vyos.remote.download] is outside the
    repository; section 4.4 has it download to the temporary location,
    which is the path the script goes on with. *)
Definition download (url dst : string) (vrf : option string)
    (username password : string) (progressbar : bool) : M string :=
  call (Download url dst vrf username password progressbar);;
  mret dst.

(** [for file in Path(DIR_ROOTFS_SRC).iterdir(): ...] of lines 462-464 and
    574-576; iterating over a missing directory raises. *)
Definition copy_kernel_and_initrd (target_dir : string) : M unit :=
  entries ← ask rootfs_src_entries;
  match entries with
  | None =>
      raise (Exception ("[Errno 2] No such file or directory: '" +:+
                        DIR_ROOTFS_SRC +:+ "'"))
  | Some entries =>
      for_each entries (λ file,
        if snd file && (name_matches "initrd" (fst file)
                        || name_matches "vmlinuz" (fst file))
        then call (Copy (DIR_ROOTFS_SRC +:+ "/" +:+ fst file) target_dir)
        else mret tt)
  end.

(** [Path(FILE_ROOTFS_SRC).exists()] *)
Definition rootfs_src_exists (e : Env) : bool :=
  match rootfs_src_entries e with
  | Some entries => bool_decide ("filesystem.squashfs" ∈ entries.*1)
  | None => false
  end.

Definition vyatta_config (user_password : string) : string :=
  "system {" +:+ nl +:+ "  login {" +:+ nl +:+ "    user vyos {" +:+ nl +:+
  "      authentication {" +:+ nl +:+ "        encrypted-password " +:+
  quot +:+ user_password +:+ quot +:+ nl +:+ "      }" +:+ nl +:+
  "    }" +:+ nl +:+ "  }" +:+ nl +:+ "}" +:+ nl.

(** lines 370-492 *)
Definition install_image (no_prompt : bool) (target_disk : option string)
    (vyos_password : option string) (root_size_gb : option float)
    (image_name : option string) (set_default : bool)
    (console_type : string) : M unit :=
  live ← ask is_live_boot;
  (if live : bool then mret tt else exit (Some MSG_ERR_NOT_LIVE));;
  print (Text (if negb no_prompt then MSG_INFO_INSTALL_WELCOME
               else "Installing VyOS image..."));;
  (* Check memory *)
  mem_total ← ask (λ e, vd_memory_total (get_version_data e));
  match mem_total with
  | Some total =>
      if (negb (total =? 0) && (total <? 4294967296))%Z
      then print (Text MSG_LOWMEM_WARNING) else mret tt
  | None => mret tt
  end;;
  (* Find disks *)
  disks_available ← ask disks_size;
  match disks_available with
  | [] => exit (Some MSG_ERR_NO_DISK)
  | _ => mret tt
  end;;
  (* Select disk *)
  disk_selected ← ask_single_disk disks_available no_prompt target_disk;
  (* Confirm installation (skip in no_prompt mode) *)
  (if negb no_prompt then print (Text MSG_INFO_INSTALL_DISK_CONFIRM)
   else mret tt);;
  (* Get password for vyos user *)
  user_password ←
    (if no_prompt then
       let vyos_password :=
         if truthy_str vyos_password then default "" vyos_password
         else "vyos" in
       ask (λ e, linux_context_hash e vyos_password)
     else ask (λ e, linux_context_hash e "vyos"));
  (* Get console type *)
  let console_type :=
    if bool_decide (console_type ∈ ["kvm"; "serial"]) then console_type
    else "kvm" in
  (* Partition and format disk *)
  print (Text MSG_INFO_INSTALL_PARTITONING);;
  call (DiskCleanup disk_selected);;
  (* Calculate partition sizes *)
  total_size ← ask (λ e, disk_size e disk_selected);
  let available_space := (total_size - 2147483648)%Z in
  root_size ← ask_root_size available_space no_prompt root_size_gb;
  (* Create partitions *)
  call (ParttableCreate disk_selected "gpt");;
  partition_efi ← disk_partition_create disk_selected (512 * 1024 * 1024) EFI;
  partition_root ← disk_partition_create disk_selected root_size LINUX;
  (* Format partitions *)
  call (FilesystemCreate partition_efi "vfat");;
  call (FilesystemCreate partition_root "ext4");;
  (* Mount partitions *)
  call (Mkdir DIR_INSTALLATION);;
  call (PartitionMount partition_root DIR_INSTALLATION None);;
  call (Mkdir (DIR_INSTALLATION +:+ "/boot/efi"));;
  call (PartitionMount partition_efi (DIR_INSTALLATION +:+ "/boot/efi") None);;
  (* Generate image name *)
  image_name ←
    (if truthy_str image_name then mret (default "" image_name)
     else ask (λ e, get_default_image_name e
                      (default "unknown" (vd_version (get_version_data e)))));
  (* Create directories *)
  let target_dir := DIR_INSTALLATION +:+ "/boot/" +:+ image_name in
  call (Mkdir target_dir);;
  call (Mkdir (target_dir +:+ "/rw"));;
  (* Copy system files *)
  print (Text "Copying system files...");;
  iso_path ← find_persistence;
  (if truthy_str iso_path
   then call (PartitionMount (default "" iso_path) DIR_ISO_MOUNT None)
   else mret tt);;
  (* Copy kernel and initrd *)
  copy_kernel_and_initrd target_dir;;
  (* Copy squashfs *)
  squashfs ← ask rootfs_src_exists;
  (if squashfs : bool
   then call (Copy FILE_ROOTFS_SRC
                (target_dir +:+ "/" +:+ image_name +:+ ".squashfs"))
   else mret tt);;
  (* Setup boot *)
  call (GrubInstall disk_selected (DIR_INSTALLATION +:+ "/boot")
          (DIR_INSTALLATION +:+ "/boot/efi"));;
  call (GrubSetConsoleType console_type DIR_INSTALLATION);;
  (* Create version file *)
  call (GrubVersionAdd image_name DIR_INSTALLATION);;
  (if set_default then call (GrubSetDefault image_name DIR_INSTALLATION)
   else mret tt);;
  (* Create vyos user *)
  call (WriteFile (target_dir +:+ "/rw/opt/vyatta/etc/config/.vyatta_config")
          (vyatta_config user_password));;
  (* Cleanup *)
  (if truthy_str iso_path then call (PartitionUmount DIR_ISO_MOUNT)
   else mret tt);;
  call (PartitionUmount (DIR_INSTALLATION +:+ "/boot/efi"));;
  call (PartitionUmount DIR_INSTALLATION);;
  call Sync;;
  print (Text MSG_INFO_INSTALL_SUCCESS).

(** [loads(read_file(version_file))] when the file exists,
    [{'version': 'unknown'}] otherwise (lines 541-545). *)
Definition read_version_data (e : Env) : VersionData :=
  match iso_version_json e with
  | Some data => data
  | None => {| vd_version := Some "unknown"; vd_architecture := None;
               vd_flavor := None; vd_memory_total := None |}
  end.

(** The [try] block of add_image, lines 537-592. *)
Definition add_image_body (iso_path : string) (no_prompt : bool) : M unit :=
  call (Mkdir DIR_ISO_MOUNT);;
  call (PartitionMount iso_path DIR_ISO_MOUNT (Some ("iso9660", true)));;
  (* Get version info *)
  version_data ← ask read_version_data;
  (* Generate image name *)
  new_image_name ←
    (if no_prompt
     then ask (λ e, get_default_image_name e
                      (default "unknown" (vd_version version_data)))
     else ask (λ e, get_default_image_name e
                      (default "unknown" (vd_version version_data))));
  (* Check if image name already exists *)
  installed_images ← ask get_images;
  let new_image_name := Naming.resolve_name installed_images new_image_name in
  print (Text ("Installing image: " +:+ new_image_name));;
  (* Create target directory *)
  root_dir ← ask disk_find_persistence;
  let root_dir := if truthy_str root_dir then default "" root_dir else "/" in
  let target_dir := root_dir +:+ "/boot/" +:+ new_image_name in
  call (Mkdir target_dir);;
  call (Mkdir (target_dir +:+ "/rw"));;
  (* Copy files *)
  print (Text "Copying system files...");;
  copy_kernel_and_initrd target_dir;;
  squashfs ← ask rootfs_src_exists;
  (if squashfs : bool
   then call (Copy FILE_ROOTFS_SRC
                (target_dir +:+ "/" +:+ new_image_name +:+ ".squashfs"))
   else mret tt);;
  (* Add to grub *)
  call (GrubVersionAdd new_image_name root_dir);;
  let set_default := if no_prompt then true else false in
  (if set_default then call (GrubSetDefault new_image_name root_dir)
   else mret tt);;
  print (Text ("Image " +:+ new_image_name +:+ " installed successfully")).

(** lines 495-597.  [iso_path] is a [Path]: the model carries what [str]
    gives for it, which is what the existence check looks up, the message
    shows and the mount receives.  [urlparse] is called outside every
    [try]: a [ValueError] of it leaves add_image as it is. *)
Definition add_image (image_path : string) (vrf : option string)
    (username password : string) (no_prompt force : bool) : M unit :=
  live ← ask is_live_boot;
  (if live : bool then exit (Some MSG_ERR_LIVE) else mret tt);;
  (* Check for unsaved commits *)
  unsaved ← (if negb no_prompt then ask unsaved_commits else mret false);
  (if unsaved : bool then exit (Some MSG_ERR_UNSAVED_COMMITS) else mret tt);;
  (* Download image if needed *)
  iso_path ← ask (λ e, path_str e image_path);
  scheme ←
    (parsed ← ask (λ e, urlparse_scheme e image_path);
     match parsed with
     | inl msg => raise (Exception msg)
     | inr scheme => mret scheme
     end);
  iso_path ←
    (if truthy_str (Some scheme) then
       try_except
         (print (Text ("Downloading image from " +:+ image_path));;
          downloaded ← download image_path "/tmp/vyos_image.iso" vrf username
                         password (negb no_prompt);
          ask (λ e, path_str e downloaded))
         (λ e, exit (Some ("Failed to download image: " +:+ e)))
     else mret iso_path);
  present ← query (path_exists iso_path);
  (if present : bool then mret tt
   else exit (Some ("Image file not found: " +:+ iso_path)));;
  (* Mount and extract image *)
  try_finally
    (try_except (add_image_body iso_path no_prompt)
       (λ e, exit (Some ("Failed to add image: " +:+ e))))
    (cleanup [DIR_ISO_MOUNT] []).

(** The namespace argparse hands over (lines 606-637).  The parser itself
    restricts [action] and [console_type] to their choices and gives
    [vyos_password] and [console_type] their defaults. *)
Inductive Action := Install | Add.

Record Args := {
  action : Action;
  vrf : option string;
  no_prompt : bool;
  username : string;
  password : string;
  image_path : option string;
  force : bool;
  target_disk : option string;
  vyos_password : string;
  root_size_gb : option float;
  image_name : option string;
  no_set_default : bool;
  console_type : string
}.

Definition set_no_prompt (b : bool) (a : Args) : Args :=
  {| action := action a; vrf := vrf a; no_prompt := b;
     username := username a; password := password a;
     image_path := image_path a; force := force a;
     target_disk := target_disk a; vyos_password := vyos_password a;
     root_size_gb := root_size_gb a; image_name := image_name a;
     no_set_default := no_set_default a; console_type := console_type a |}.


(** lines 639-646: what parse_arguments does with the parsed namespace *)
Definition parse_arguments (args : Args) : M Args :=
  (* Validate arguments *)
  match action args with
  | Add =>
      if truthy_str (image_path args) then mret tt
      else exit (Some "A path to image is required for add action")
  | Install => mret tt
  end;;
  match action args with
  | Install => mret (set_no_prompt true args)
  | Add => mret args
  end.

(** lines 649-681 *)
Definition main (argv : Args) : M unit :=
  try_except_interrupt
    (args ← parse_arguments argv;
     match action args with
     | Install =>
         install_image (no_prompt args) (target_disk args)
           (Some (vyos_password args)) (root_size_gb args) (image_name args)
           (negb (no_set_default args)) (console_type args)
     | Add =>
         add_image (default "" (image_path args)) (vrf args) (username args)
           (password args) (no_prompt args) (force args)
     end;;
     exit None)
    (print (Text "Stopped by Ctrl+C");;
     cleanup [] [];;
     exit None)
    (λ err, exit (Some err)).

End Installer.

(** ** Vocabulary for the properties *)

Module Rel.
Import Py Sys Run Installer.

(** A relation that holds between the world before and after any run. *)
Definition relates {A} (R : relation World) (m : M A) : Prop :=
  ∀ w, R w (m w).2.

(** Two worlds agree on an observation. *)
Definition same {B} (f : World → B) : relation World := λ w w', f w' = f w.

Definition both (R1 R2 : relation World) : relation World :=
  λ w w', R1 w w' ∧ R2 w w'.

(** The exceptions a run may end with. *)
Definition raises_only {A} (P : exn → Prop) (m : M A) : Prop :=
  ∀ w, match (m w).1 with Raise e => P e | Ret _ => True end.


(** The name add_image gives the new image, and the root it registers it
    under, as functions of the environment. *)
Definition new_image_name_of (e : Env) : string :=
  Naming.resolve_name (get_images e)
    (get_default_image_name e
       (default "unknown" (vd_version (read_version_data e)))).

Definition root_dir_of (e : Env) : string :=
  if truthy_str (disk_find_persistence e)
  then default "" (disk_find_persistence e) else "/".

(** Environment and bootloader registry as they were. *)
Definition steady : relation World :=
  both (same env) (both (same grub_default) (same grub_versions)).

(** Where add_image downloads to. *)
Definition tmp_image : string := "/tmp/vyos_image.iso".

(** The unmount of the source mount point is never made to fail. *)
Definition umount_iso_ok (e : Env) : Prop :=
  ∀ n, oracle e n (PartitionUmount DIR_ISO_MOUNT) = None.

Definition iso_mounts (w : World) : nat :=
  mount_count DIR_ISO_MOUNT (mounted w).

Definition untouched : relation World := both (same env) (same mounted).

(** At most one more mount, and that at the source mount point. *)
Definition mounts_iso_once : relation World := λ w w',
  env w' = env w ∧
  (mounted w' = mounted w ∨ mounted w' = DIR_ISO_MOUNT :: mounted w).

(** One mount at the source mount point released, if there was one. *)
Definition releases_iso : relation World := λ w w',
  env w' = env w ∧
  (umount_iso_ok (env w) → iso_mounts w' = pred (iso_mounts w)).

(** No mount at the source mount point added. *)
Definition no_iso_leak : relation World := λ w w',
  env w' = env w ∧ (umount_iso_ok (env w) → iso_mounts w' ≤ iso_mounts w).

(** The downloaded image stays where it is. *)
Definition keeps_tmp_image : relation World := λ w w',
  path_exists tmp_image w = true → path_exists tmp_image w' = true.

(** Calls that cannot remove the downloaded image. *)
Definition spares_tmp_image (c : ext_call) : bool :=
  match c with
  | Unlink p | Rmtree p =>
      negb (String.eqb tmp_image p || String.prefix (p +:+ "/") tmp_image)
  | _ => true
  end.

(** The advisory of ask_root_size, printed after what was printed before. *)
Definition with_advisory (available_space : Z) (w : World) : World :=
  set_output (output w ++ [InvalidRootSize available_space]) w.

End Rel.

(** ** Concrete systems, for the scenarios of the specification *)

Module Scenario.
Import Py Sys Run Installer.

(** No primitive fails. *)
Definition quiet : nat → ext_call → option fault := λ _ _, None.

(** The user interrupts the run while files are being copied. *)
Definition interrupt_on_copy : nat → ext_call → option fault :=
  λ _ c, match c with Copy _ _ => Some Interrupt | _ => None end.

Definition version_data (version architecture flavor : string) : VersionData :=
  {| vd_version := Some version; vd_architecture := Some architecture;
     vd_flavor := Some flavor; vd_memory_total := Some 8589934592%Z |}.

Definition live_entries : list (string * bool) :=
  [("vmlinuz-6.6", true); ("initrd.img-6.6", true);
   ("filesystem.squashfs", true)].

Definition GiB : Z := 1073741824.

(** What [urlparse] answers for the paths of the scenarios: one that
    starts with [http://] has the scheme [http], the absolute paths have
    none.  [Path] writes these paths as they are. *)
Definition scheme_of (url : string) : string + string :=
  inr (if String.prefix "http://" url then "http" else "").

(** An installed system that runs the image [vyos-1.4] and is offered the
    image described by [new]; [unsaved] says whether its configuration has
    unsaved changes. *)
Definition installed_env (unsaved : bool) (running new : VersionData) : Env :=
  {| is_live_boot := false; unsaved_commits := unsaved;
     get_version_data := running;
     disks_size := ["/dev/sda"]; disk_size := λ _, (22 * GiB)%Z;
     partition_path := λ drive _ ptype,
       drive +:+ match ptype with EFI => "1" | LINUX => "2" end;
     device_list := ["/dev/sda"]; parttable_partitions_list := λ _, [];
     disk_find_persistence := None;
     get_images := ["vyos-1.4"];
     get_default_image_name := λ version, "vyos-" +:+ version;
     linux_context_hash := λ password, "$6$" +:+ password;
     urlparse_scheme := scheme_of; path_str := λ p, p;
     iso_version_json := Some new;
     rootfs_src_entries := Some live_entries;
     oracle := quiet |}.

Definition installed_world (unsaved : bool) (running new : VersionData)
    : World :=
  {| env := installed_env unsaved running new; clock := 0; mounted := [];
     fs := [("/tmp/new.iso", File)];
     grub_default := [("/", "vyos-1.4")];
     grub_versions := [("/", "vyos-1.4")];
     grub_console := [("/", "kvm")]; trace := []; output := [] |}.

Definition upgrade_world : World :=
  installed_world false (version_data "1.4" "amd64" "generic")
    (version_data "1.4" "amd64" "generic").


(** A live system with one empty 22 GiB disk. *)
Definition live_env (faults : nat → ext_call → option fault) : Env :=
  {| is_live_boot := true; unsaved_commits := false;
     get_version_data := version_data "1.4" "amd64" "generic";
     disks_size := ["/dev/sda"]; disk_size := λ _, (22 * GiB)%Z;
     partition_path := λ drive _ ptype,
       drive +:+ match ptype with EFI => "1" | LINUX => "2" end;
     device_list := ["/dev/sda"]; parttable_partitions_list := λ _, [];
     disk_find_persistence := None;
     get_images := [];
     get_default_image_name := λ version, "vyos-" +:+ version;
     linux_context_hash := λ password, "$6$" +:+ password;
     urlparse_scheme := scheme_of; path_str := λ p, p;
     iso_version_json := None;
     rootfs_src_entries := Some live_entries;
     oracle := faults |}.

Definition live_world (faults : nat → ext_call → option fault) : World :=
  {| env := live_env faults; clock := 0; mounted := []; fs := [];
     grub_default := []; grub_versions := []; grub_console := [];
     trace := []; output := [] |}.

(** [--action install] with the defaults of the parser. *)
Definition install_args : Args :=
  {| action := Install; vrf := None; no_prompt := false; username := "";
     password := ""; image_path := None; force := false;
     target_disk := None; vyos_password := "vyos"; root_size_gb := None;
     image_name := None; no_set_default := false; console_type := "kvm" |}.

(** [--action add --no-prompt --no-set-default --image-path /tmp/new.iso] *)
Definition add_args_no_set_default : Args :=
  {| action := Add; vrf := None; no_prompt := true; username := "";
     password := ""; image_path := Some "/tmp/new.iso"; force := false;
     target_disk := None; vyos_password := "vyos"; root_size_gb := None;
     image_name := None; no_set_default := true; console_type := "kvm" |}.

(** The runs of the scenarios. *)
Definition other_architecture : World :=
  installed_world false (version_data "1.4" "amd64" "generic")
    (version_data "1.4" "arm64" "generic").

Definition other_flavor : World :=
  installed_world false (version_data "1.4" "amd64" "iso")
    (version_data "1.4" "amd64" "generic").

Definition upgrade_from_file : result unit * World :=
  add_image "/tmp/new.iso" None "" "" true false upgrade_world.

Definition upgrade_from_url : result unit * World :=
  add_image "http://mirror/new.iso" None "" "" true false upgrade_world.

Definition interrupted_install : result unit * World :=
  main install_args (live_world interrupt_on_copy).

Definition add_with_no_set_default : result unit * World :=
  main add_args_no_set_default upgrade_world.

Definition install_with_vga : result unit * World :=
  install_image true None (Some "vyos") None None true "vga"
    (live_world quiet).

(** The floats 1.0 and 0.0. *)
Definition float_one : float := S754_finite false (2 ^ 52) (-52).
Definition float_zero : float := S754_zero false.

End Scenario.

(** ** The helpers of the script the workflows do not call *)

Module Helpers.
Import Py Sys Run Installer.

Definition MSG_INFO_INSTALL_DISKS_LIST : string :=
  "The following disks were found:".

(** lines 213-236 *)
Definition select_disk (disks : list string) (no_prompt : bool)
    (target_disk : option string) : M string :=
  let first : M string :=
    match disks with
    | d :: _ => mret d
    | [] => raise (Exception "list index out of range")
    end in
  if no_prompt then
    if truthy_str target_disk
       && bool_decide (default "" target_disk ∈ disks)
    then mret (default "" target_disk)
    else
      (* In non-interactive mode, select first available disk *)
      first
  else
    (* This won't be reached in non-interactive mode *)
    print (Text MSG_INFO_INSTALL_DISKS_LIST);;
    for_each disks (λ disk_info, print (Text ("  " +:+ disk_info)));;
    (* Simplified: just return first disk *)
    first.

(** What a collaborator that only reads gives back: a value, or the text
    of the exception it raises. *)
Definition answer (A : Type) : Type := string + A.

Definition reply {A} (a : answer A) : M A :=
  match a with
  | inl msg => raise (Exception msg)
  | inr v => mret v
  end.

(** lines 333-349.  [get_local_users] and [get_user_home_dir] of
    [vyos.utils.auth] are outside the repository: what they answer is a
    parameter. *)
Definition migrate_known_hosts (get_local_users : answer (list string))
    (get_user_home_dir : string → answer string) (target_dir : string)
    : M unit :=
  try_except
    (users ← reply get_local_users;
     for_each users (λ user,
       user_home ← reply (get_user_home_dir user);
       let known_hosts_file := user_home +:+ "/.ssh/known_hosts" in
       present ← query (path_exists known_hosts_file);
       if present : bool then
         let target_user_dir := target_dir +:+ "/home/" +:+ user +:+ "/.ssh" in
         call (Mkdir target_user_dir);;
         call (Copy known_hosts_file target_user_dir)
       else mret tt))
    (λ err,
       print (Text ("Warning: Failed to migrate SSH known_hosts: " +:+ err))).

End Helpers.

(** ** More vocabulary for the properties *)

Module Obs.
Import Py Sys Run Installer Rel Scenario.

(** All the partitions [find_persistence] looks at, in the order it does. *)
Definition all_partitions (e : Env) (devices : list string) : list Partition :=
  concat (map (parttable_partitions_list e) devices).

(** The [disk] entry of the first partition named [persistence]. *)
Fixpoint first_persistence (partitions : list Partition) : option string :=
  match partitions with
  | [] => None
  | partition :: rest =>
      if bool_decide (part_name partition = Some "persistence")
      then part_disk partition
      else first_persistence rest
  end.

(** The console type install_image configures. *)
Definition effective_console (console_type : string) : string :=
  if bool_decide (console_type = "kvm" ∨ console_type = "serial")
  then console_type else "kvm".

(** The bootloader defaults after an install under [DIR_INSTALLATION]. *)
Definition default_after_install (set_default : bool) (name : string)
    (before : list (string * string)) : list (string * string) :=
  if set_default then (DIR_INSTALLATION, name) :: before else before.

(** The name install_image gives the image. *)
Definition install_name_of (e : Env) (image_name : option string) : string :=
  if truthy_str image_name then default "" image_name
  else get_default_image_name e
         (default "unknown" (vd_version (get_version_data e))).

(** No unmount is made to fail by the oracle. *)
Definition umounts_ok (e : Env) : Prop :=
  ∀ n mp, oracle e n (PartitionUmount mp) = None.

(** Removing the installation directory is not made to fail. *)
Definition removal_ok (e : Env) : Prop :=
  ∀ n, oracle e n (Rmtree DIR_INSTALLATION) = None ∧
       oracle e n (Unlink DIR_INSTALLATION) = None.


(** A run not ended by an exception that derives from [Exception]. *)
Definition not_an_error (e : exn) : Prop :=
  match e with Exception _ => False | _ => True end.

(** The environment, the mount table and the bootloader configuration as
    they were. *)
Definition settled : relation World :=
  both (same env)
    (both (same mounted)
       (both (same grub_default)
          (both (same grub_versions) (same grub_console)))).

(** Every mount point but the source mount point is mounted as often as
    it was. *)
Definition other_mounts_kept : relation World := λ w w',
  ∀ mp, mp ≠ DIR_ISO_MOUNT →
        mount_count mp (mounted w') = mount_count mp (mounted w).

(** Calls that leave the mount points other than the source's alone. *)
Definition spares_other_mounts (c : ext_call) : bool :=
  match c with
  | PartitionMount _ path _ => String.eqb path DIR_ISO_MOUNT
  | PartitionUmount mp => String.eqb mp DIR_ISO_MOUNT
  | _ => true
  end.

(** What was printed is still there, and the console warning is not among
    what was printed since. *)
Definition no_console_warning : relation World := λ w w',
  ∃ printed, output w' = (output w ++ printed)%list ∧
             (Text MSG_WARN_CONSOLE_TYPE_INVALID ∉ printed).

(** A system whose second disk holds the persistence partition. *)
Definition persistence_env : Env :=
  {| is_live_boot := false; unsaved_commits := false;
     get_version_data :=
       {| vd_version := Some "1.4"; vd_architecture := Some "amd64";
          vd_flavor := Some "generic"; vd_memory_total := None |};
     disks_size := ["/dev/sda"; "/dev/sdb"]; disk_size := λ _, 0%Z;
     partition_path := λ drive _ _, drive;
     device_list := ["/dev/sda"; "/dev/sdb"];
     parttable_partitions_list := λ device,
       if String.eqb device "/dev/sdb"
       then [ {| part_name := Some "efi"; part_disk := Some "/dev/sdb1" |};
              {| part_name := Some "persistence";
                 part_disk := Some "/dev/sdb2" |} ]
       else [];
     disk_find_persistence := Some "/dev/sdb2";
     get_images := ["vyos-1.4"];
     get_default_image_name := λ version, "vyos-" +:+ version;
     linux_context_hash := λ password, password;
     urlparse_scheme := scheme_of; path_str := λ p, p;
     iso_version_json := None;
     rootfs_src_entries := None;
     oracle := λ _ _, None |}.

(** A live system that has no disk. *)
Definition diskless_world : World :=
  {| env :=
       {| is_live_boot := true; unsaved_commits := false;
          get_version_data := version_data "1.4" "amd64" "generic";
          disks_size := []; disk_size := λ _, 0%Z;
          partition_path := λ drive _ _, drive;
          device_list := []; parttable_partitions_list := λ _, [];
          disk_find_persistence := None;
          get_images := [];
          get_default_image_name := λ version, "vyos-" +:+ version;
          linux_context_hash := λ password, password;
          urlparse_scheme := scheme_of; path_str := λ p, p;
          iso_version_json := None;
          rootfs_src_entries := None;
          oracle := quiet |};
     clock := 0; mounted := []; fs := []; grub_default := [];
     grub_versions := []; grub_console := []; trace := []; output := [] |}.

(** An installed system on which an installation directory was left. *)
Definition littered_world : World :=
  set_fs [("/mnt/installation/boot", Dir); ("/mnt/installation", Dir)]
    upgrade_world.

(** An installed system with the source mount point mounted once and
    another mount beside it. *)
Definition mounted_world : World :=
  set_mounted ["/mnt/iso"; "/mnt/data"] upgrade_world.

End Obs.

(** * Properties *)

(** ** Properties of the collision resolution *)

Module NamingFacts.
Import Naming.

Lemma suffixed_inj name : Inj (=) (=) (suffixed name).
Proof.
  intros j k H. unfold suffixed in H.
  apply (inj (String.append name)) in H.
  apply (inj (String.append ".")) in H.
  by apply (inj pretty) in H.
Qed.

Lemma app_empty_r (s : string) : s +:+ "" = s.
Proof. induction s as [|a s IH]; [done | by rewrite <- IH at 2]. Qed.

Lemma suffixed_neq name k : suffixed name k ≠ name.
Proof.
  unfold suffixed. intros H.
  assert (H' : name +:+ "." +:+ pretty k = name +:+ "")
    by (by rewrite app_empty_r).
  apply (inj (String.append name)) in H'. discriminate H'.
Qed.

(** What the loop returns is the least free counter from where it started. *)
Lemma suffix_loop_Some fuel installed name c r :
  suffix_loop fuel installed name c = Some r →
  c ≤ r ∧ (suffixed name r ∉ installed) ∧
  (∀ k, c ≤ k < r → suffixed name k ∈ installed).
Proof.
  revert c. induction fuel as [|fuel IH]; intros c H; simpl in H; [done|].
  case_bool_decide as Hin.
  - apply IH in H as (Hle & Hfree & Hbelow).
    split; [lia|]. split; [done|].
    intros k Hk. destruct (decide (k = c)) as [->|Hne]; [done|].
    apply Hbelow. lia.
  - injection H as <-. split; [lia|]. split; [done|]. intros k Hk. lia.
Qed.

(** Running out of fuel means every candidate tried so far is taken. *)
Lemma suffix_loop_None fuel installed name c :
  suffix_loop fuel installed name c = None →
  ∀ k, c ≤ k < c + fuel → suffixed name k ∈ installed.
Proof.
  revert c. induction fuel as [|fuel IH]; intros c H k Hk; [lia|].
  simpl in H. case_bool_decide as Hin; [|done].
  destruct (decide (k = c)) as [->|Hne]; [done|].
  apply (IH (S c)); [done | lia].
Qed.

(** Pigeonhole: the candidates [name.c], ..., [name.(c+fuel-1)] are pairwise
    distinct, so they cannot all be among fewer installed images. *)
Lemma suffix_loop_enough_fuel fuel installed name c :
  length installed < fuel →
  is_Some (suffix_loop fuel installed name c).
Proof.
  intros Hfuel.
  destruct (suffix_loop fuel installed name c) as [r|] eqn:E; [by eexists|].
  exfalso.
  pose proof (suffix_loop_None _ _ _ _ E) as Hall.
  assert (Hnd : List.NoDup (suffixed name <$> seq c fuel)).
  { apply NoDup_ListNoDup, NoDup_fmap_2; [apply suffixed_inj | apply NoDup_seq]. }
  assert (Hincl : incl (suffixed name <$> seq c fuel) installed).
  { intros x Hx. apply list_elem_of_In in Hx.
    apply list_elem_of_fmap in Hx as (k & -> & Hk).
    apply list_elem_of_In, Hall. by apply elem_of_seq in Hk. }
  pose proof (NoDup_incl_length Hnd Hincl) as Hlen.
  rewrite length_fmap, length_seq in Hlen. lia.
Qed.

(** The result does not depend on the fuel once there is enough of it. *)
Lemma suffix_loop_fuel_irrel fuel1 fuel2 installed name c :
  length installed < fuel1 → length installed < fuel2 →
  suffix_loop fuel1 installed name c = suffix_loop fuel2 installed name c.
Proof.
  intros H1 H2.
  destruct (suffix_loop_enough_fuel fuel1 installed name c H1) as [r1 E1].
  destruct (suffix_loop_enough_fuel fuel2 installed name c H2) as [r2 E2].
  rewrite E1, E2. f_equal.
  apply suffix_loop_Some in E1 as (Hc1 & Hf1 & Hb1).
  apply suffix_loop_Some in E2 as (Hc2 & Hf2 & Hb2).
  destruct (Nat.lt_trichotomy r1 r2) as [Hlt|[Heq|Hgt]]; [|done|].
  - exfalso. apply Hf1, Hb2. lia.
  - exfalso. apply Hf2, Hb1. lia.
Qed.

Lemma resolve_name_fuel_enough fuel installed name :
  length installed < fuel →
  resolve_name_fuel fuel installed name = Some (resolve_name installed name).
Proof.
  intros Hfuel. unfold resolve_name, resolve_name_fuel.
  case_bool_decide as Hin; [|done].
  rewrite (suffix_loop_fuel_irrel fuel (S (length installed))) by lia.
  destruct (suffix_loop_enough_fuel (S (length installed)) installed name 1)
    as [r ->]; [lia | done].
Qed.

(** C9.  For every list of installed image names and every candidate name,
    the numeric-suffix loop of add_image stops: with any amount of fuel
    above the number of installed images the resolution returns a name
    (the same one whatever the fuel), and that name is not among the
    installed images. *)
Theorem resolve_name_terminates_fresh (installed : list string) (name : string) :
  ∃ r : string,
    (∀ fuel, length installed < fuel →
       resolve_name_fuel fuel installed name = Some r) ∧
    resolve_name installed name = r ∧
    (r ∉ installed).
Proof.
  exists (resolve_name installed name).
  split; [intros fuel Hf; by apply resolve_name_fuel_enough|].
  split; [done|].
  unfold resolve_name, resolve_name_fuel.
  case_bool_decide as Hin; [|done].
  destruct (suffix_loop_enough_fuel (S (length installed)) installed name 1)
    as [r E]; [lia|].
  rewrite E. simpl. by apply suffix_loop_Some in E as (_ & Hfree & _).
Qed.

(** C2.  If the installed images are exactly [foo], [foo.1], ...,
    [foo.(N-1)] with [N >= 1], resolving the candidate [foo] gives exactly
    [foo.N]. *)
Theorem resolve_name_next_suffix (foo : string) (N : nat)
    (installed : list string) :
  1 ≤ N →
  (∀ x, x ∈ installed ↔ x = foo ∨ ∃ k, 1 ≤ k < N ∧ x = suffixed foo k) →
  resolve_name installed foo = suffixed foo N.
Proof.
  intros HN Hexact.
  unfold resolve_name, resolve_name_fuel.
  rewrite bool_decide_eq_true_2 by (apply Hexact; by left).
  destruct (suffix_loop_enough_fuel (S (length installed)) installed foo 1)
    as [r E]; [lia|].
  rewrite E. simpl. f_equal.
  apply suffix_loop_Some in E as (Hle & Hfree & Hbelow).
  destruct (Nat.lt_trichotomy r N) as [Hlt|[Heq|Hgt]]; [|done|].
  - exfalso. apply Hfree, Hexact. right. exists r. split; [lia | done].
  - exfalso.
    assert (Hin : suffixed foo N ∈ installed) by (apply Hbelow; lia).
    apply Hexact in Hin as [Heq | (k & Hk & Heq)].
    + by apply suffixed_neq in Heq.
    + apply suffixed_inj in Heq. lia.
Qed.

(** The scenario of the specification: [vyos-1.4] present once. *)
Lemma resolve_name_next_suffix_witness :
  1 ≤ 1 ∧
  (∀ x, x ∈ ["vyos-1.4"] ↔
        x = "vyos-1.4" ∨ ∃ k, 1 ≤ k < 1 ∧ x = suffixed "vyos-1.4" k) ∧
  resolve_name ["vyos-1.4"] "vyos-1.4" = "vyos-1.4.1".
Proof.
  assert (H : ∀ x, x ∈ ["vyos-1.4"] ↔
        x = "vyos-1.4" ∨ ∃ k, 1 ≤ k < 1 ∧ x = suffixed "vyos-1.4" k).
  { intros x. rewrite list_elem_of_singleton. split; [by left|].
    intros [?|(k & Hk & _)]; [done | lia]. }
  split; [lia|]. split; [exact H|].
  exact (resolve_name_next_suffix "vyos-1.4" 1 ["vyos-1.4"] (le_n 1) H).
Defined.

End NamingFacts.

(** ** Reasoning about runs *)

Module Logic.
Import Py Sys Run Rel.

Lemma bind_run {A B} (m : M A) (f : A → M B) (w : World) :
  (m ≫= f) w =
  match m w with
  | (Ret a, w') => f a w'
  | (Raise e, w') => (Raise e, w')
  end.
Proof. reflexivity. Qed.

Global Instance same_preorder {B} (f : World → B) : PreOrder (same f).
Proof.
  split; [intros w; reflexivity|].
  intros x y z Hxy Hyz. unfold same in *. congruence.
Qed.

Global Instance both_preorder R1 R2 :
  PreOrder R1 → PreOrder R2 → PreOrder (both R1 R2).
Proof.
  intros H1 H2. split.
  - intros w. split; reflexivity.
  - intros x y z [? ?] [? ?]. split; etrans; eauto.
Qed.

Lemma relates_weaken {A} (R1 R2 : relation World) (m : M A) :
  (∀ w w', R1 w w' → R2 w w') → relates R1 m → relates R2 m.
Proof. intros Hsub Hm w. apply Hsub, Hm. Qed.

(** Sequencing, for relations that need not compose with themselves. *)
Lemma relates_bind_gen {A B} (R1 R2 R : relation World)
    (m : M A) (f : A → M B) :
  relates R1 m → (∀ a, relates R2 (f a)) →
  (∀ w w', R1 w w' → R w w') →
  (∀ w w1 w', R1 w w1 → R2 w1 w' → R w w') →
  relates R (m ≫= f).
Proof.
  intros Hm Hf Hstop Hcomp w. rewrite bind_run.
  specialize (Hm w). destruct (m w) as [[a|e] w1]; simpl in *.
  - eapply Hcomp; [exact Hm | apply Hf].
  - by apply Hstop.
Qed.

(** A run that starts by printing. *)
Lemma relates_after_print {B} (R : relation World) (l : line)
    (k : unit → M B) :
  relates R (k tt) →
  (∀ w w' o, R (set_output o w) w' → R w w') →
  relates R (print l ≫= k).
Proof. intros Hk Hout w. eapply Hout. apply Hk. Qed.

Section preorder.
Context (R : relation World) `{!PreOrder R}.

Lemma relates_ret {A} (a : A) : relates R (mret a).
Proof. intros w. simpl. reflexivity. Qed.

Lemma relates_raise {A} (e : exn) : relates R (raise (A:=A) e).
Proof. intros w. simpl. reflexivity. Qed.

Lemma relates_exit {A} (arg : option string) : relates R (exit (A:=A) arg).
Proof. apply relates_raise. Qed.

Lemma relates_query {A} (f : World → A) : relates R (query f).
Proof. intros w. simpl. reflexivity. Qed.

Lemma relates_ask {A} (f : Env → A) : relates R (ask f).
Proof. apply relates_query. Qed.

Lemma relates_bind {A B} (m : M A) (f : A → M B) :
  relates R m → (∀ a, relates R (f a)) → relates R (m ≫= f).
Proof.
  intros Hm Hf. apply (relates_bind_gen R R R); [done | done | done |].
  intros x y z ? ?. by etrans.
Qed.

Lemma relates_for_each {A} (l : list A) (body : A → M unit) :
  (∀ x, relates R (body x)) → relates R (for_each l body).
Proof.
  intros Hbody. induction l as [|x l IH]; simpl.
  - apply relates_ret.
  - apply relates_bind; [apply Hbody | intros _; apply IH].
Qed.

Lemma relates_try_except {A} (body : M A) (handler : string → M A) :
  relates R body → (∀ msg, relates R (handler msg)) →
  relates R (try_except body handler).
Proof.
  intros Hb Hh w. unfold try_except.
  specialize (Hb w). destruct (body w) as [[a|[|arg|msg]] w1]; simpl in *;
    try done.
  etrans; [exact Hb | apply Hh].
Qed.

Lemma relates_try_finally {A} (body : M A) (final : M unit) :
  relates R body → relates R final → relates R (try_finally body final).
Proof.
  intros Hb Hf w. unfold try_finally.
  specialize (Hb w). destruct (body w) as [r w1]; simpl in *.
  specialize (Hf w1). destruct (final w1) as [[[]|e] w2]; simpl in *;
    by etrans.
Qed.

Lemma relates_try_except_interrupt {A} (body on_interrupt : M A)
    (on_error : string → M A) :
  relates R body → relates R on_interrupt →
  (∀ msg, relates R (on_error msg)) →
  relates R (try_except_interrupt body on_interrupt on_error).
Proof.
  intros Hb Hi He w. unfold try_except_interrupt.
  specialize (Hb w). destruct (body w) as [[a|[|arg|msg]] w1]; simpl in *;
    try done.
  - etrans; [exact Hb | apply Hi].
  - etrans; [exact Hb | apply He].
Qed.

(** A primitive call: the clock advances, then the call may take
    effect and enter the trace. *)
Lemma relates_call (c : ext_call) :
  (∀ w n, R w (set_clock n w)) →
  (∀ w t, R w (set_trace t (call_effect c w))) →
  relates R (call c).
Proof.
  intros Hclock Heffect w. unfold call.
  destruct (oracle (env w) (clock w) c) as [[|msg]|]; simpl; try apply Hclock.
  destruct (call_refused c _) as [msg|]; simpl; [apply Hclock|].
  etrans; [apply (Hclock w (S (clock w))) | apply Heffect].
Qed.

Lemma relates_print (l : line) :
  (∀ w o, R w (set_output o w)) → relates R (print l).
Proof. intros Hout w. apply Hout. Qed.
End preorder.

Section raises.
Context (P : exn → Prop).

Lemma raises_ret {A} (a : A) : raises_only P (mret a).
Proof. by intros w. Qed.

Lemma raises_raise {A} (e : exn) : P e → raises_only P (raise (A:=A) e).
Proof. by intros He w. Qed.

Lemma raises_exit {A} (arg : option string) :
  P (SystemExit arg) → raises_only P (exit (A:=A) arg).
Proof. apply raises_raise. Qed.

Lemma raises_query {A} (f : World → A) : raises_only P (query f).
Proof. by intros w. Qed.

Lemma raises_ask {A} (f : Env → A) : raises_only P (ask f).
Proof. by intros w. Qed.

Lemma raises_print (l : line) : raises_only P (print l).
Proof. by intros w. Qed.

Lemma raises_bind {A B} (m : M A) (f : A → M B) :
  raises_only P m → (∀ a, raises_only P (f a)) → raises_only P (m ≫= f).
Proof.
  intros Hm Hf w. rewrite bind_run. specialize (Hm w).
  destruct (m w) as [[a|e] w1]; simpl in *; [apply Hf | done].
Qed.

Lemma raises_for_each {A} (l : list A) (body : A → M unit) :
  (∀ x, raises_only P (body x)) → raises_only P (for_each l body).
Proof.
  intros Hbody. induction l as [|x l IH]; simpl.
  - apply raises_ret.
  - apply raises_bind; [apply Hbody | intros _; apply IH].
Qed.

Lemma raises_call (c : ext_call) :
  P KeyboardInterrupt → (∀ msg, P (Exception msg)) → raises_only P (call c).
Proof.
  intros Hki Hexc w. unfold call.
  destruct (oracle (env w) (clock w) c) as [[|msg]|]; simpl; try done.
  destruct (call_refused c _) as [msg|]; simpl; done.
Qed.

Lemma raises_try_except {A} (body : M A) (handler : string → M A) :
  raises_only (λ e, match e with Exception _ => True | _ => P e end) body →
  (∀ msg, raises_only P (handler msg)) →
  raises_only P (try_except body handler).
Proof.
  intros Hb Hh w. unfold try_except. specialize (Hb w).
  destruct (body w) as [[a|[|arg|msg]] w1]; simpl in *; try done.
  apply Hh.
Qed.

Lemma raises_try_finally {A} (body : M A) (final : M unit) :
  raises_only P body → raises_only P final →
  raises_only P (try_finally body final).
Proof.
  intros Hb Hf w. unfold try_finally. specialize (Hb w).
  destruct (body w) as [r w1]; simpl in *. specialize (Hf w1).
  destruct (final w1) as [[[]|e] w2]; simpl in *; done.
Qed.
End raises.

(** *** Runs that return *)

Lemma bind_Ret_inv {A B} (m : M A) (f : A → M B) w b w' :
  (m ≫= f) w = (Ret b, w') →
  ∃ a w1, m w = (Ret a, w1) ∧ f a w1 = (Ret b, w').
Proof.
  rewrite bind_run. destruct (m w) as [[a|e] w1]; [|done].
  intros H. by exists a, w1.
Qed.

Lemma query_Ret_inv {A} (f : World → A) w a w' :
  query f w = (Ret a, w') → a = f w ∧ w' = w.
Proof. unfold query. by intros [= <- <-]. Qed.

Lemma call_Ret_inv (c : ext_call) w w' :
  call c w = (Ret tt, w') →
  w' = set_trace (trace w ++ [c]) (call_effect c (set_clock (S (clock w)) w)).
Proof.
  unfold call. destruct (oracle (env w) (clock w) c) as [[|msg]|]; try done.
  destruct (call_refused c _) as [msg|]; [done|]. by intros [= <-].
Qed.

Lemma try_except_Ret_inv {A} (body : M A) (handler : string → M A) w a w' :
  (∀ msg w0, (handler msg w0).1 ≠ Ret a) →
  try_except body handler w = (Ret a, w') → body w = (Ret a, w').
Proof.
  intros Hh. unfold try_except.
  destruct (body w) as [[a'|[|arg|msg]] w1]; try done.
  intros H. exfalso. apply (Hh msg w1). by rewrite H.
Qed.

Lemma try_finally_Ret_inv {A} (body : M A) (final : M unit) w a w' :
  try_finally body final w = (Ret a, w') →
  ∃ w1, body w = (Ret a, w1) ∧ final w1 = (Ret tt, w').
Proof.
  unfold try_finally. destruct (body w) as [r w1].
  destruct (final w1) as [[[]|e] w2] eqn:Hfinal; [|done].
  intros [= ? ?]; subst. by exists w1.
Qed.

End Logic.

Module Frame.
Import Py Sys Run Installer Rel Logic.

Create HintDb frame.

Ltac rel_side :=
  first
    [ solve [intros; unfold both, same; repeat split; reflexivity]
    | solve [eauto with frame] ].

Ltac rel_unfold :=
  first
    [ progress unfold cleanup | progress unfold gb_to_bytes
    | progress unfold find_persistence | progress unfold ask_single_disk
    | progress unfold ask_root_size | progress unfold disk_partition_create
    | progress unfold download | progress unfold copy_kernel_and_initrd
    | progress unfold add_image_body ].

Ltac rel_step :=
  lazymatch goal with
  | |- relates _ (mret _) => apply relates_ret; tc_solve
  | |- relates _ (mbind _ _) => apply relates_bind; [tc_solve | |]
  | |- relates _ (raise _) => apply relates_raise; tc_solve
  | |- relates _ (exit _) => apply relates_exit; tc_solve
  | |- relates _ (query _) => apply relates_query; tc_solve
  | |- relates _ (ask _) => apply relates_ask; tc_solve
  | |- relates _ (print _) => apply relates_print; rel_side
  | |- relates _ (call _) =>
      apply relates_call; [tc_solve | rel_side | rel_side]
  | |- relates _ (for_each [] _) => cbn [for_each]
  | |- relates _ (for_each (_ :: _) _) => cbn [for_each]
  | |- relates _ (for_each _ _) => apply relates_for_each; [tc_solve |]
  | |- relates _ (try_except _ _) => apply relates_try_except; [tc_solve | |]
  | |- relates _ (try_finally _ _) => apply relates_try_finally; [tc_solve | |]
  | |- relates _ (if ?b then _ else _) => destruct b
  | |- relates _ (match ?x with _ => _ end) => destruct x
  | |- relates _ _ => rel_unfold
  end.

Ltac rel := repeat (intros; cbv beta zeta iota; rel_step).

Lemma add_image_interactive_keeps_default image_path vrf username password force :
  relates (same grub_default)
    (add_image image_path vrf username password false force).
Proof. unfold add_image. rel. Qed.

Lemma install_image_keeps_default no_prompt target_disk vyos_password
    root_size_gb image_name console_type :
  relates (same grub_default)
    (install_image no_prompt target_disk vyos_password root_size_gb
       image_name false console_type).
Proof. unfold install_image. rel. Qed.

End Frame.

Module Steps.
Import Py Sys Run Installer Rel Logic.

Lemma ask_bind {A B} (f : Env → A) (k : A → M B) w :
  (ask f ≫= k) w = k (f (env w)) w.
Proof. reflexivity. Qed.

Lemma query_bind {A B} (f : World → A) (k : A → M B) w :
  (query f ≫= k) w = k (f w) w.
Proof. reflexivity. Qed.

Lemma ret_bind {A B} (a : A) (k : A → M B) w : (mret a ≫= k) w = k a w.
Proof. reflexivity. Qed.

Lemma exit_bind {A B} (arg : option string) (k : A → M B) w :
  (exit arg ≫= k) w = (Raise (SystemExit arg), w).
Proof. reflexivity. Qed.

Lemma print_bind {B} (l : line) (k : unit → M B) w :
  (print l ≫= k) w = k tt (set_output (output w ++ [l]) w).
Proof. reflexivity. Qed.

Ltac rs_side :=
  first
    [ exact I
    | solve [intros; exact I]
    | solve [intros; cbn; intros [= ?]; discriminate]
    | solve [intros; cbn; discriminate]
    | solve [intros; cbn; congruence] ].

Ltac rs_step :=
  lazymatch goal with
  | |- raises_only _ (mret _) => apply raises_ret
  | |- raises_only _ (mbind _ _) => apply raises_bind
  | |- raises_only _ (raise _) => apply raises_raise; rs_side
  | |- raises_only _ (exit _) => apply raises_exit; rs_side
  | |- raises_only _ (query _) => apply raises_query
  | |- raises_only _ (ask _) => apply raises_ask
  | |- raises_only _ (print _) => apply raises_print
  | |- raises_only _ (call _) => apply raises_call; rs_side
  | |- raises_only _ (for_each _ _) => apply raises_for_each
  | |- raises_only _ (try_except _ _) => apply raises_try_except
  | |- raises_only _ (try_finally _ _) => apply raises_try_finally
  | |- raises_only _ (if ?b then _ else _) => destruct b
  | |- raises_only _ (match ?x with _ => _ end) => destruct x
  | |- raises_only _ _ => Frame.rel_unfold
  end.

Ltac rs := repeat (intros; cbv beta zeta iota; rs_step).

End Steps.

Module Unsaved.
Import Py Sys Run Installer Rel Logic Steps Scenario.


End Unsaved.

Module DefaultPointer.
Import Py Sys Run Installer Rel Logic Steps Frame Scenario.

Ltac step_rel H :=
  let a := fresh "a" in
  let w1 := fresh "w" in
  let Hm := fresh "Hm" in
  apply bind_Ret_inv in H as (a & w1 & Hm & H);
  match type of Hm with
  | ?m ?w0 = _ =>
      let HR := fresh "HR" in
      assert (HR : relates steady m) by (unfold steady; rel);
      specialize (HR w0); rewrite Hm in HR;
      unfold steady, both, same in HR; cbn [snd] in HR;
      destruct HR as (? & ? & ?); clear Hm
  end.

Ltac step_ask H :=
  let a := fresh "a" in
  let w1 := fresh "w" in
  let Hm := fresh "Hm" in
  apply bind_Ret_inv in H as (a & w1 & Hm & H);
  apply query_Ret_inv in Hm as [-> ->].

Ltac last_rel H :=
  match type of H with
  | ?m ?w0 = _ =>
      let HR := fresh "HR" in
      assert (HR : relates steady m) by (unfold steady; rel);
      specialize (HR w0); rewrite H in HR;
      unfold steady, both, same in HR; cbn [snd] in HR;
      destruct HR as (? & ? & ?)
  end.

Ltac chain_eqs :=
  repeat match goal with
         | Heq : env ?x = env _ |- _ => rewrite Heq in *; clear Heq
         | Heq : grub_default ?x = _ |- _ => rewrite Heq in *; clear Heq
         | Heq : grub_versions ?x = _ |- _ => rewrite Heq in *; clear Heq
         end.

(** The [try] block, when it returns in non-interactive mode, has
    registered the new image and made it the default. *)
Lemma add_image_body_sets_default iso_path w w' :
  add_image_body iso_path true w = (Ret tt, w') →
  env w' = env w ∧
  grub_versions w' =
    (root_dir_of (env w), new_image_name_of (env w)) :: grub_versions w ∧
  grub_default w' =
    (root_dir_of (env w), new_image_name_of (env w)) :: grub_default w.
Proof.
  intros H. unfold add_image_body in H. cbv beta zeta iota in H.
  step_rel H. step_rel H. step_ask H. step_ask H. step_ask H.
  step_rel H. step_ask H. step_rel H. step_rel H. step_rel H. step_rel H.
  step_ask H. step_rel H.
  apply bind_Ret_inv in H as ([] & wv & Hadd & H).
  apply call_Ret_inv in Hadd.
  apply bind_Ret_inv in H as ([] & wd & Hset & H).
  apply call_Ret_inv in Hset. last_rel H.
  unfold same in *. subst wd wv. simpl in *. clear H.
  unfold new_image_name_of, root_dir_of.
  chain_eqs. done.
Qed.

Lemma assoc_head k v l : assoc k ((k, v) :: l) = Some v.
Proof. unfold assoc. by rewrite String.eqb_refl. Qed.

Lemma exit_never_returns {A} (arg : option string) (a : A) w :
  (exit arg w).1 ≠ Ret a.
Proof. done. Qed.

(** C10.  Whenever add_image is called with [no_prompt = True] and returns,
    it has registered exactly one new image, and the Default Pointer of
    the root it registered it under names that image; whenever it is
    called with [no_prompt = False], the bootloader defaults are, however
    the run ends, what they were. *)
Theorem add_image_default_pointer image_path vrf username password force
    (w : World) :
  (∀ w', add_image image_path vrf username password true force w
           = (Ret tt, w') →
         grub_versions w' =
           (root_dir_of (env w), new_image_name_of (env w))
             :: grub_versions w ∧
         default_pointer (root_dir_of (env w)) w'
           = Some (new_image_name_of (env w))) ∧
  grub_default
    (add_image image_path vrf username password false force w).2
    = grub_default w.
Proof.
  split; [|apply add_image_interactive_keeps_default].
  intros w' H. unfold add_image in H. cbv beta zeta iota in H.
  step_ask H. step_rel H. step_rel H. step_rel H.
  step_ask H. step_rel H. step_rel H. step_ask H. step_rel H.
  apply try_finally_Ret_inv in H as (wb & Hbody & Hfinal).
  apply try_except_Ret_inv in Hbody; [|intros; apply exit_never_returns].
  apply add_image_body_sets_default in Hbody as (Henv & Hversions & Hdefault).
  last_rel Hfinal.
  unfold default_pointer, same in *. chain_eqs.
  split; [done | apply assoc_head].
Qed.

Lemma parse_arguments_install (argv : Args) w :
  action argv = Install →
  parse_arguments argv w = (Ret (set_no_prompt true argv), w).
Proof. intros Haction. unfold parse_arguments. by rewrite Haction. Qed.

(** The install path honours [--no-set-default]: the entry point, run for
    [--action install --no-set-default], leaves the bootloader defaults as
    they were, however the run ends. *)
Lemma main_install_no_set_default (argv : Args) :
  action argv = Install → no_set_default argv = true →
  relates (same grub_default) (main argv).
Proof.
  intros Haction Hflag. unfold main.
  apply relates_try_except_interrupt; [tc_solve | | rel | rel].
  intros w. rewrite bind_run, parse_arguments_install by exact Haction.
  cbn [action set_no_prompt no_set_default]. rewrite Haction, Hflag.
  cbn [negb].
  match goal with
  | |- same grub_default w (?m w).2 =>
      assert (Hm : relates (same grub_default) m)
        by (apply relates_bind;
            [tc_solve | apply install_image_keeps_default | rel]);
      apply Hm
  end.
Qed.

Lemma add_image_default_pointer_witness :
  add_image "/tmp/new.iso" None "" "" true false upgrade_world
    = (Ret tt, upgrade_from_file.2) ∧
  new_image_name_of (env upgrade_world) = "vyos-1.4.1" ∧
  grub_versions upgrade_from_file.2 = [("/", "vyos-1.4.1"); ("/", "vyos-1.4")] ∧
  default_pointer (root_dir_of (env upgrade_world)) upgrade_from_file.2
    = Some (new_image_name_of (env upgrade_world)).
Proof.
  assert (Hrun : add_image "/tmp/new.iso" None "" "" true false upgrade_world
                 = (Ret tt, upgrade_from_file.2)) by (vm_compute; reflexivity).
  destruct (proj1 (add_image_default_pointer "/tmp/new.iso" None "" "" false
                     upgrade_world) upgrade_from_file.2 Hrun)
    as [Hversions Hdefault].
  split; [exact Hrun|]. split; [reflexivity|].
  split; [rewrite Hversions; reflexivity | exact Hdefault].
Defined.

End DefaultPointer.

Module Cleanup.
Import Py Sys Run Installer Rel Logic Steps Frame Scenario.

Global Instance no_iso_leak_preorder : PreOrder no_iso_leak.
Proof.
  split.
  - intros w. split; [done|]. intros _. reflexivity.
  - intros x y z [Hxy Hle1] [Hyz Hle2]. split; [congruence|].
    intros Hok. etrans; [apply Hle2; by rewrite Hxy | by apply Hle1].
Qed.

Global Instance keeps_tmp_image_preorder : PreOrder keeps_tmp_image.
Proof.
  split; [intros w H; exact H|]. intros x y z Hxy Hyz H. by apply Hyz, Hxy.
Qed.

Lemma untouched_no_leak w w' : untouched w w' → no_iso_leak w w'.
Proof.
  intros [Henv Hm]. unfold same in *. split; [done|].
  intros _. unfold iso_mounts. by rewrite Hm.
Qed.

Lemma mount_count_remove_first mp l :
  mount_count mp (remove_first mp l) = pred (mount_count mp l).
Proof.
  induction l as [|x l IH]; [done|]. simpl.
  destruct (String.eqb x mp) eqn:E; simpl; [done|]. by rewrite E.
Qed.

Lemma mount_count_absent mp l : mp ∉ l → mount_count mp l = 0.
Proof.
  induction l as [|x l IH]; [done|]. intros Hnot. simpl.
  apply not_elem_of_cons in Hnot as [Hne Hnot].
  destruct (String.eqb_spec x mp) as [->|_]; [done|]. by rewrite IH.
Qed.

(** The [for mount in mounts] loop of cleanup at the source mount point. *)
Lemma umount_iso_releases (handler : string → M unit) :
  (∀ msg, relates untouched (handler msg)) →
  relates releases_iso
    (try_except (call (PartitionUmount DIR_ISO_MOUNT)) handler).
Proof.
  intros Hh w. unfold try_except, call.
  destruct (oracle (env w) (clock w) (PartitionUmount DIR_ISO_MOUNT))
    as [[|msg]|] eqn:Hor.
  - split; [done|]. intros Hok. by rewrite Hok in Hor.
  - destruct (Hh msg (set_clock (S (clock w)) w)) as [He Hm].
    unfold same in *. split; [by rewrite He|].
    intros Hok. by rewrite Hok in Hor.
  - unfold call_refused. case_bool_decide as Hin; simpl.
    + split; [done|]. intros _. unfold iso_mounts. simpl.
      apply mount_count_remove_first.
    + destruct (Hh ("umount: " +:+ DIR_ISO_MOUNT +:+ ": not mounted.")
                  (set_clock (S (clock w)) w)) as [He Hm].
      unfold same in *. split; [by rewrite He|].
      intros _. unfold iso_mounts. rewrite Hm. simpl.
      by rewrite mount_count_absent.
Qed.

Lemma cleanup_releases_iso :
  relates releases_iso (cleanup [DIR_ISO_MOUNT] []).
Proof.
  unfold cleanup. cbv beta zeta iota. cbn [for_each].
  apply relates_after_print; [|intros w w' o H; exact H].
  assert (Hcomp : ∀ w w1 w2,
            releases_iso w w1 → untouched w1 w2 → releases_iso w w2).
  { intros w w1 w2 [He Hc] [He' Hm]. unfold same in *.
    split; [congruence|]. intros Hok. unfold iso_mounts in *.
    rewrite Hm. by apply Hc. }
  apply (relates_bind_gen releases_iso untouched); [| rel | done | exact Hcomp].
  apply (relates_bind_gen releases_iso untouched); [| rel | done | exact Hcomp].
  apply umount_iso_releases. rel.
Qed.

Lemma mount_iso_once partition extra :
  relates mounts_iso_once (call (PartitionMount partition DIR_ISO_MOUNT extra)).
Proof.
  intros w. unfold call.
  destruct (oracle _ _ _) as [[|msg]|]; simpl; try (split; [done | by left]).
  split; [done | by right].
Qed.

Lemma add_image_body_mounts_once iso_path no_prompt :
  relates mounts_iso_once (add_image_body iso_path no_prompt).
Proof.
  unfold add_image_body.
  apply (relates_bind_gen untouched mounts_iso_once); [rel | | |].
  - intros _.
    apply (relates_bind_gen mounts_iso_once untouched);
      [apply mount_iso_once | intros _; rel | done |].
    intros w w1 w2 [He Hm] [He' Hm']. unfold same in *.
    split; [congruence|]. rewrite Hm'. done.
  - intros w w' [He Hm]. unfold same in *. split; [done | by left].
  - intros w w1 w2 [He Hm] [He' Hm']. unfold same in *.
    split; [congruence|]. rewrite Hm in Hm'. rewrite He in He'. tauto.
Qed.

Lemma try_finally_no_leak iso_path no_prompt (handler : string → M unit) :
  (∀ msg, relates untouched (handler msg)) →
  relates no_iso_leak
    (try_finally (try_except (add_image_body iso_path no_prompt) handler)
       (cleanup [DIR_ISO_MOUNT] [])).
Proof.
  intros Hh w. unfold try_finally.
  assert (Hbody : mounts_iso_once w
            (try_except (add_image_body iso_path no_prompt) handler w).2).
  { unfold try_except.
    pose proof (add_image_body_mounts_once iso_path no_prompt w) as Hb.
    destruct (add_image_body iso_path no_prompt w) as [[a|[|arg|msg]] w1];
      simpl in *; try done.
    destruct (Hh msg w1) as [He Hm]. unfold same in *.
    destruct Hb as [Hbe Hbm]. split; [congruence|]. by rewrite Hm. }
  destruct (try_except _ _ w) as [r w1]. simpl in Hbody.
  pose proof (cleanup_releases_iso w1) as Hc.
  destruct (cleanup _ _ w1) as [[[]|e] w2]; simpl in *.
  all: destruct Hbody as [He Hm], Hc as [He' Hc]; split; [congruence|].
  all: intros Hok; rewrite Hc by (by rewrite He); unfold iso_mounts.
  all: destruct Hm as [-> | ->]; simpl; lia.
Qed.

Lemma add_image_no_iso_leak image_path vrf username password no_prompt force :
  relates no_iso_leak
    (add_image image_path vrf username password no_prompt force).
Proof.
  unfold add_image.
  repeat (apply relates_bind;
          [tc_solve
          | apply (relates_weaken untouched); [exact untouched_no_leak | rel]
          | intros ?]).
  apply try_finally_no_leak. rel.
Qed.

(** *** The downloaded image *)

Lemma lookup_path_add_node q p k f :
  is_Some (lookup_path q f) → is_Some (lookup_path q (add_node p k f)).
Proof.
  intros Hq. unfold add_node. destruct (lookup_path p f); [done|].
  simpl. by destruct (String.eqb p q).
Qed.

Lemma lookup_path_add_node_same p k f : is_Some (lookup_path p (add_node p k f)).
Proof.
  unfold add_node. destruct (lookup_path p f) eqn:E; [by rewrite E|].
  simpl. by rewrite String.eqb_refl.
Qed.

Lemma lookup_path_filter q (keep : string * node → bool) f :
  (∀ k, keep (q, k) = true) →
  lookup_path q (List.filter keep f) = lookup_path q f.
Proof.
  intros Hkeep. induction f as [|[x k] f IH]; [done|]. simpl.
  destruct (String.eqb_spec x q) as [->|Hne].
  - rewrite Hkeep. simpl. by rewrite String.eqb_refl.
  - destruct (keep (x, k)); [|done]. simpl.
    by destruct (String.eqb_spec x q).
Qed.

Lemma path_exists_is_Some p w :
  path_exists p w = true ↔ is_Some (lookup_path p (fs w)).
Proof.
  unfold path_exists. destruct (lookup_path p (fs w)); split; done.
Qed.

Lemma keeps_tmp_image_call c w t :
  spares_tmp_image c = true →
  keeps_tmp_image w (set_trace t (call_effect c w)).
Proof.
  unfold keeps_tmp_image. rewrite !path_exists_is_Some.
  intros Hc H.
  destruct c; cbn [spares_tmp_image call_effect fs set_fs set_trace
                   set_mounted set_grub_default set_grub_versions
                   set_grub_console] in *; try done.
  - by apply lookup_path_add_node.
  - by apply lookup_path_add_node.
  - unfold remove_path. rewrite lookup_path_filter; [done|].
    intros k. cbn [fst]. apply negb_true_iff in Hc.
    apply orb_false_iff in Hc as [Hc _]. by rewrite Hc.
  - unfold remove_tree. rewrite lookup_path_filter; [done|].
    intros k. cbn [fst]. exact Hc.
  - by apply lookup_path_add_node.
  - by apply lookup_path_add_node.
Qed.

Lemma keeps_tmp_image_clock w n : keeps_tmp_image w (set_clock n w).
Proof. intros H. exact H. Qed.

Lemma keeps_tmp_image_output w o : keeps_tmp_image w (set_output o w).
Proof. intros H. exact H. Qed.

#[local] Hint Resolve keeps_tmp_image_clock keeps_tmp_image_output : frame.
#[local] Hint Extern 1 (keeps_tmp_image _ (set_trace _ (call_effect _ _))) =>
  apply keeps_tmp_image_call; reflexivity : frame.

Lemma add_image_after_download_keeps_tmp iso_path no_prompt :
  relates keeps_tmp_image
    (present ← query (path_exists iso_path);
     (if present : bool then mret tt
      else exit (Some ("Image file not found: " +:+ iso_path)));;
     try_finally
       (try_except (add_image_body iso_path no_prompt)
          (λ e, exit (Some ("Failed to add image: " +:+ e))))
       (cleanup [DIR_ISO_MOUNT] [])).
Proof. rel. Qed.

Lemma download_succeeds url dst vrf username password progressbar w :
  oracle (env w) (clock w)
    (Download url dst vrf username password progressbar) = None →
  download url dst vrf username password progressbar w =
  (Ret dst,
   set_trace (trace w ++ [Download url dst vrf username password progressbar])
     (set_fs (add_node dst File (fs w)) (set_clock (S (clock w)) w))).
Proof.
  intros Hor. unfold download. rewrite bind_run. unfold call.
  by rewrite Hor.
Qed.

(** X23.  For every run of add_image in which the unmount of the source
    mount point is not itself made to fail, however the run ends (success,
    failure or interrupt), no mount of the source mount point made by the
    run is left: there are at most as many as before.  The downloaded
    image is not removed: when the path has a scheme and the run gets as
    far as a successful download, the file is still there when add_image
    is over. *)
Theorem add_image_cleanup image_path vrf username password no_prompt force
    (w : World) :
  umount_iso_ok (env w) →
  let w' :=
    (add_image image_path vrf username password no_prompt force w).2 in
  iso_mounts w' ≤ iso_mounts w ∧
  (∀ scheme,
     is_live_boot (env w) = false →
     negb no_prompt && unsaved_commits (env w) = false →
     urlparse_scheme (env w) image_path = inr scheme →
     truthy_str (Some scheme) = true →
     oracle (env w) (clock w)
       (Download image_path tmp_image vrf username password (negb no_prompt))
       = None →
     path_exists tmp_image w' = true).
Proof.
  intros Hok w'. split.
  - by apply (add_image_no_iso_leak image_path vrf username password
                no_prompt force w).
  - intros scheme Hlive Hgate Hscheme Htruthy Hor. subst w'. unfold add_image.
    rewrite ask_bind, Hlive, ret_bind.
    assert (Hunsaved :
      (if negb no_prompt then ask unsaved_commits else mret false) w
      = (Ret false, w)).
    { destruct no_prompt; [done|]. cbn [negb andb] in *. unfold ask, query.
      by rewrite Hgate. }
    rewrite bind_run, Hunsaved, ret_bind, ask_bind.
    rewrite bind_run, ask_bind, Hscheme. cbv beta iota.
    change (@mret M _ _ scheme w) with (Ret scheme, w). cbv beta iota.
    rewrite Htruthy, bind_run. unfold try_except.
    rewrite print_bind, bind_run.
    rewrite download_succeeds by exact Hor.
    apply add_image_after_download_keeps_tmp.
    apply path_exists_is_Some. cbn [fs set_trace set_fs].
    apply lookup_path_add_node_same.
Qed.

Lemma add_image_cleanup_witness :
  umount_iso_ok (env upgrade_world) ∧
  iso_mounts upgrade_from_url.2 ≤ iso_mounts upgrade_world ∧
  path_exists tmp_image upgrade_from_url.2 = true.
Proof.
  assert (Hok : umount_iso_ok (env upgrade_world))
    by (intros n; reflexivity).
  split; [exact Hok|].
  destruct (add_image_cleanup "http://mirror/new.iso" None "" "" true false
              upgrade_world Hok) as [Hle Hkeep].
  split; [exact Hle|]. apply (Hkeep "http"); reflexivity.
Defined.

End Cleanup.

Module RootSize.
Import Py Sys Run Installer Rel Logic Steps Scenario.

(** C3, amended.  In non-interactive mode, for every requested size that
    converts to a number of bytes (a finite float) below 1.5 GiB or above
    the available space, ask_root_size returns all the available space
    and does not fail; it prints the advisory when the request is not
    zero, and prints nothing when it is (a request of 0 GB counts as no
    request). *)
Theorem ask_root_size_fallback (available_space : Z) (size : float)
    (root_size : Z) (w : World) :
  int_of_float (fmul size float_2_30) = inr root_size →
  (root_size < CONST_MIN_ROOT_SIZE ∨ root_size > available_space)%Z →
  ask_root_size available_space true (Some size) w =
  (Ret available_space,
   if truthy_float size then with_advisory available_space w else w).
Proof.
  intros Hbytes Hout. unfold ask_root_size.
  destruct (truthy_float size); [|done].
  rewrite bind_run. unfold gb_to_bytes. rewrite Hbytes.
  assert (Hcond : ((root_size <? CONST_MIN_ROOT_SIZE)
                   || (root_size >? available_space))%Z = true).
  { apply orb_true_iff. destruct Hout as [Hlt | Hgt].
    - left. by apply Z.ltb_lt.
    - right. apply Z.gtb_lt. lia. }
  simpl. by rewrite Hcond.
Qed.

Lemma ask_root_size_fallback_witness :
  int_of_float (fmul float_one float_2_30) = inr GiB ∧
  (GiB < CONST_MIN_ROOT_SIZE ∨ GiB > 20 * GiB)%Z ∧
  ask_root_size (20 * GiB) true (Some float_one) upgrade_world =
  (Ret (20 * GiB)%Z, with_advisory (20 * GiB) upgrade_world).
Proof.
  assert (Hbytes : int_of_float (fmul float_one float_2_30) = inr GiB)
    by reflexivity.
  assert (Hout : (GiB < CONST_MIN_ROOT_SIZE ∨ GiB > 20 * GiB)%Z)
    by (left; reflexivity).
  split; [exact Hbytes|]. split; [exact Hout|].
  exact (ask_root_size_fallback (20 * GiB) float_one GiB upgrade_world
           Hbytes Hout).
Defined.

(** C3 as stated fails at a request of 0.0 GB with 20 GiB available: zero
    bytes is below the minimum, the result is all the available space, and
    no advisory is printed. *)
Lemma ask_root_size_zero_no_advisory :
  int_of_float (fmul float_zero float_2_30) = inr 0%Z ∧
  (0 < CONST_MIN_ROOT_SIZE)%Z ∧
  ask_root_size (20 * GiB) true (Some float_zero) upgrade_world =
    (Ret (20 * GiB)%Z, upgrade_world) ∧
  (InvalidRootSize (20 * GiB) ∉
     output (ask_root_size (20 * GiB) true (Some float_zero)
               upgrade_world).2).
Proof.
  split; [reflexivity|]. split; [reflexivity|]. split; [reflexivity|].
  simpl. apply not_elem_of_nil.
Qed.

(** A request that is not a finite number makes the conversion raise. *)
Lemma ask_root_size_infinity_raises (available_space : Z) (w : World) :
  ask_root_size available_space true (Some (S754_infinity false)) w =
  (Raise (Exception "cannot convert float infinity to integer"), w).
Proof. reflexivity. Qed.

End RootSize.

Module Scenarios.
Import Py Sys Run Installer Rel Logic Scenario.

Ltac not_in_list :=
  let H := fresh in
  intros H;
  repeat (apply elem_of_cons in H as [H|H]; [discriminate H|]);
  by apply elem_of_nil in H.

(** C1.  What the code does where the claim wants a fatal error: the
    running image is for amd64 and the new one for arm64, or the running
    flavor is iso and the new one generic; with or without [force],
    add_image returns normally, registers the new image and makes it the
    default, and prints no warning. *)
Theorem add_image_skips_compatibility_check (force : bool) :
  vd_architecture (get_version_data (env other_architecture)) = Some "amd64" ∧
  vd_architecture (read_version_data (env other_architecture)) = Some "arm64" ∧
  vd_flavor (get_version_data (env other_flavor)) = Some "iso" ∧
  vd_flavor (read_version_data (env other_flavor)) = Some "generic" ∧
  (add_image "/tmp/new.iso" None "" "" true force other_architecture).1
    = Ret tt ∧
  default_pointer "/"
    (add_image "/tmp/new.iso" None "" "" true force other_architecture).2
    = Some "vyos-1.4.1" ∧
  output (add_image "/tmp/new.iso" None "" "" true force other_architecture).2
    = [Text "Installing image: vyos-1.4.1"; Text "Copying system files...";
       Text "Image vyos-1.4.1 installed successfully"; Text "Cleaning up"] ∧
  (add_image "/tmp/new.iso" None "" "" true force other_flavor).1 = Ret tt ∧
  default_pointer "/"
    (add_image "/tmp/new.iso" None "" "" true force other_flavor).2
    = Some "vyos-1.4.1" ∧
  output (add_image "/tmp/new.iso" None "" "" true force other_flavor).2
    = [Text "Installing image: vyos-1.4.1"; Text "Copying system files...";
       Text "Image vyos-1.4.1 installed successfully"; Text "Cleaning up"].
Proof. destruct force; vm_compute; repeat split. Qed.

(** C4.  What the code does where the claim wants every mount released:
    an install interrupted while files are copied prints the notice, runs
    cleanup and exits with status 0, but the two mounts the run made are
    still there, cleanup having been given no mount point. *)
Theorem interrupted_install_leaves_mounts :
  mounted (live_world interrupt_on_copy) = [] ∧
  interrupted_install.1 = Raise (SystemExit None) ∧
  exit_status (SystemExit None) = 0%Z ∧
  mounted interrupted_install.2
    = ["/mnt/installation/boot/efi"; "/mnt/installation"] ∧
  output interrupted_install.2 =
    [Text "Installing VyOS image..."; Text "Using disk: /dev/sda";
     Text "Creating partition table..."; Text "Copying system files...";
     Text "Stopped by Ctrl+C"; Text "Cleaning up"] ∧
  (PartitionUmount "/mnt/installation" ∉ trace interrupted_install.2) ∧
  (PartitionUmount "/mnt/installation/boot/efi"
     ∉ trace interrupted_install.2).
Proof. vm_compute. repeat split; not_in_list. Qed.

(** C5.  What the code does where the claim wants the temporary download
    of the run removed: for an image given by URL the run succeeds, the
    file it downloaded to [/tmp/vyos_image.iso] did not exist before, and
    it is still there afterwards, never having been unlinked. *)
Lemma add_image_keeps_download :
  upgrade_from_url.1 = Ret tt ∧
  path_exists "/tmp/vyos_image.iso" upgrade_world = false ∧
  path_exists "/tmp/vyos_image.iso" upgrade_from_url.2 = true ∧
  (Unlink "/tmp/vyos_image.iso" ∉ trace upgrade_from_url.2).
Proof. vm_compute. repeat split; not_in_list. Qed.

(** C6.  What the code does where the claim wants the Default Pointer left
    alone: [--action add --no-prompt --no-set-default] moves it from
    [vyos-1.4] to the new image. *)
Theorem add_ignores_no_set_default :
  no_set_default add_args_no_set_default = true ∧
  default_pointer "/" upgrade_world = Some "vyos-1.4" ∧
  add_with_no_set_default.1 = Raise (SystemExit None) ∧
  default_pointer "/" add_with_no_set_default.2 = Some "vyos-1.4.1".
Proof. vm_compute. repeat split. Qed.


End Scenarios.

(** * More properties of the script *)

Module NamingMore.
Import Naming NamingFacts.

Lemma resolve_name_absent installed name :
  name ∉ installed → resolve_name installed name = name.
Proof.
  intros Hnot. unfold resolve_name, resolve_name_fuel.
  by rewrite bool_decide_eq_false_2.
Qed.

Lemma resolve_name_taken installed name :
  name ∈ installed →
  ∃ c, 1 ≤ c ∧ resolve_name installed name = suffixed name c ∧
       (suffixed name c ∉ installed) ∧
       (∀ k, 1 ≤ k < c → suffixed name k ∈ installed).
Proof.
  intros Hin. unfold resolve_name, resolve_name_fuel.
  rewrite bool_decide_eq_true_2 by done.
  destruct (suffix_loop_enough_fuel (S (length installed)) installed name 1)
    as [c E]; [lia|].
  rewrite E. simpl. apply suffix_loop_Some in E as (Hle & Hfree & Hbelow).
  by exists c.
Qed.

(** X1.  The name the collision resolution returns is the candidate itself
    when it is free, and otherwise the candidate with the lowest numeric
    suffix, counting from 1, that is free: every lower suffix is taken. *)
Theorem resolve_name_lowest_free (installed : list string) (name : string) :
((name ∉ installed) ∧ resolve_name installed name = name) ∨
  (name ∈ installed ∧
   ∃ c, 1 ≤ c ∧ resolve_name installed name = suffixed name c ∧
        (suffixed name c ∉ installed) ∧
        (∀ k, 1 ≤ k < c → suffixed name k ∈ installed)).
Proof.
  destruct (decide (name ∈ installed)) as [Hin | Hnot].
  - right. split; [done|]. by apply resolve_name_taken.
  - left. split; [done|]. by apply resolve_name_absent.
Qed.

Lemma resolve_name_not_installed installed name :
  resolve_name installed name ∉ installed.
Proof.
  destruct (decide (name ∈ installed)) as [Hin | Hnot].
  - destruct (resolve_name_taken installed name Hin) as (c & _ & -> & Hfree & _).
    done.
  - by rewrite resolve_name_absent.
Qed.

(** X2.  Registering the resolved name keeps the names of the installed
    images pairwise distinct. *)
Theorem resolve_name_keeps_distinct (installed : list string) (name : string) :
  NoDup installed → NoDup (resolve_name installed name :: installed).
Proof.
  intros Hnd. apply NoDup_cons. split; [apply resolve_name_not_installed | done].
Qed.

Lemma resolve_name_keeps_distinct_witness :
  NoDup ["vyos-1.4"; "vyos-1.4.1"] ∧
  NoDup (resolve_name ["vyos-1.4"; "vyos-1.4.1"] "vyos-1.4"
           :: ["vyos-1.4"; "vyos-1.4.1"]).
Proof.
  assert (Hnd : NoDup ["vyos-1.4"; "vyos-1.4.1"]).
  { apply NoDup_cons. split; [|apply NoDup_singleton].
    intros H. apply list_elem_of_singleton in H. discriminate H. }
  split; [exact Hnd|].
  exact (resolve_name_keeps_distinct ["vyos-1.4"; "vyos-1.4.1"] "vyos-1.4" Hnd).
Defined.

End NamingMore.

Module Selection.
Import Py Sys Run Installer Helpers Obs Rel Logic Steps.

Lemma named_persistence_cons p rest :
  Exists (λ p, part_name p = Some "persistence") (p :: rest) ↔
  part_name p = Some "persistence" ∨
  Exists (λ p, part_name p = Some "persistence") rest.
Proof. apply Exists_cons. Qed.

Lemma persistence_in_first partitions :
  persistence_in partitions =
  if bool_decide (Exists (λ p, part_name p = Some "persistence") partitions)
  then Some (first_persistence partitions) else None.
Proof.
  induction partitions as [|p rest IH]; cbn [persistence_in first_persistence].
  - rewrite bool_decide_eq_false_2; [done|]. by intros H%Exists_nil.
  - destruct (decide (part_name p = Some "persistence")) as [Hp|Hp].
    + rewrite !(bool_decide_eq_true_2 (part_name p = _)) by done.
      rewrite bool_decide_eq_true_2; [done|].
      apply named_persistence_cons. by left.
    + rewrite !(bool_decide_eq_false_2 (part_name p = _)) by done.
      rewrite IH.
      destruct (decide (Exists (λ p, part_name p = Some "persistence") rest))
        as [Hrest|Hrest].
      * rewrite !bool_decide_eq_true_2; [done | | done].
        apply named_persistence_cons. by right.
      * rewrite !bool_decide_eq_false_2; [done | | done].
        intros H. apply named_persistence_cons in H as [H|H]; done.
Qed.

Lemma first_persistence_app ps qs :
  first_persistence (ps ++ qs) =
  if bool_decide (Exists (λ p, part_name p = Some "persistence") ps)
  then first_persistence ps else first_persistence qs.
Proof.
  induction ps as [|p ps IH]; cbn [app first_persistence].
  - rewrite bool_decide_eq_false_2; [done|]. by intros H%Exists_nil.
  - destruct (decide (part_name p = Some "persistence")) as [Hp|Hp].
    + rewrite !(bool_decide_eq_true_2 (part_name p = _)) by done.
      rewrite bool_decide_eq_true_2; [done|].
      apply named_persistence_cons. by left.
    + rewrite !(bool_decide_eq_false_2 (part_name p = _)) by done.
      rewrite IH.
      destruct (decide (Exists (λ p, part_name p = Some "persistence") ps))
        as [Hrest|Hrest].
      * rewrite !bool_decide_eq_true_2; [done | | done].
        apply named_persistence_cons. by right.
      * rewrite !bool_decide_eq_false_2; [done | | done].
        intros H. apply named_persistence_cons in H as [H|H]; done.
Qed.

(** X3.  find_persistence scans the partitions of all devices in order and
    answers with the [disk] entry of the first partition named
    [persistence] (so [None] when there is none, and also when that first
    one has no [disk] entry, whatever comes later); it changes nothing. *)
Theorem find_persistence_first (w : World) :
  find_persistence w =
  (Ret (first_persistence (all_partitions (env w) (device_list (env w)))), w).
Proof.
  unfold find_persistence, ask, query. f_equal. f_equal.
  unfold all_partitions.
  induction (device_list (env w)) as [|device rest IH]; [done|].
  simpl. rewrite first_persistence_app, persistence_in_first.
  case_bool_decide; [done | exact IH].
Qed.

(** X4.  ask_single_disk answers with a disk of the list it is given: the
    target disk when non-interactive mode names one that is in the list,
    the first disk of the list in every other case; on an empty list it
    raises and prints nothing. *)
Theorem ask_single_disk_chooses (disks : list string) (no_prompt : bool)
    (target_disk : option string) (w : World) :
  match (ask_single_disk disks no_prompt target_disk w).1 with
  | Ret d =>
      d ∈ disks ∧
      (if no_prompt && truthy_str target_disk
          && bool_decide (default "" target_disk ∈ disks)
       then Some d = target_disk else Some d = head disks)
  | Raise e =>
      disks = [] ∧ e = Exception "list index out of range" ∧
      (ask_single_disk disks no_prompt target_disk w).2 = w
  end.
Proof.
  unfold ask_single_disk. destruct no_prompt; simpl.
  - destruct target_disk as [[|c t]|]; simpl.
    + destruct disks as [|d rest]; simpl; [done|]. split; [apply list_elem_of_here | done].
    + case_bool_decide as Hin; simpl.
      * done.
      * destruct disks as [|d rest]; simpl; [done|]. split; [apply list_elem_of_here | done].
    + destruct disks as [|d rest]; simpl; [done|]. split; [apply list_elem_of_here | done].
  - destruct disks as [|d rest]; simpl; [done|]. split; [apply list_elem_of_here | done].
Qed.

(** X5.  select_disk and ask_single_disk choose alike: on the same list,
    mode and target they end with the same disk or the same exception;
    only what they print differs. *)
Theorem select_disk_agrees (disks : list string) (no_prompt : bool)
    (target_disk : option string) (w : World) :
  (select_disk disks no_prompt target_disk w).1 =
  (ask_single_disk disks no_prompt target_disk w).1.
Proof.
  unfold select_disk, ask_single_disk. destruct no_prompt.
  - destruct (truthy_str target_disk && _); simpl; [done|].
    by destruct disks.
  - rewrite print_bind.
    assert (Hloop : ∀ l w0, ∃ w1,
      for_each l (λ disk_info, print (Text ("  " +:+ disk_info))) w0
      = (Ret tt, w1)).
    { induction l as [|x l IH]; intros w0; simpl; [by eexists|].
      rewrite print_bind. apply IH. }
    rewrite bind_run.
    destruct (Hloop disks (set_output
      (output w ++ [Text MSG_INFO_INSTALL_DISKS_LIST]) w)) as [w1 ->].
    by destruct disks.
Qed.

End Selection.

Module RootSizeMore.
Import Py Sys Run Installer Helpers Obs Rel Logic Steps Scenario.

(** X6.  Whatever is requested and in whatever mode, the root size
    ask_root_size resolves to is all the available space or lies between
    the minimum root size and the available space. *)
Theorem ask_root_size_bounds (available_space : Z) (no_prompt : bool)
    (root_size_gb : option float) (w w' : World) (root_size : Z) :
  ask_root_size available_space no_prompt root_size_gb w
    = (Ret root_size, w') →
  root_size = available_space ∨
  (CONST_MIN_ROOT_SIZE ≤ root_size ≤ available_space)%Z.
Proof.
  unfold ask_root_size. destruct no_prompt; [|intros [= <- _]; by left].
  destruct root_size_gb as [size|]; [|intros [= <- _]; by left].
  destruct (truthy_float size); [|intros [= <- _]; by left].
  rewrite bind_run. unfold gb_to_bytes.
  destruct (int_of_float (fmul size float_2_30)) as [e|n]; [done|]. simpl.
  destruct (n <? CONST_MIN_ROOT_SIZE)%Z eqn:Hlow; simpl.
  { intros [= <- _]. by left. }
  destruct (n >? available_space)%Z eqn:Hhigh; simpl.
  { intros [= <- _]. by left. }
  intros [= <- _]. right.
  apply Z.ltb_ge in Hlow. rewrite Z.gtb_ltb in Hhigh.
  apply Z.ltb_ge in Hhigh. lia.
Qed.

Lemma ask_root_size_bounds_witness :
  ask_root_size (20 * GiB) true (Some float_one) upgrade_world
    = (Ret (20 * GiB)%Z,
       with_advisory (20 * GiB) upgrade_world) ∧
  ((20 * GiB)%Z = (20 * GiB)%Z ∨
   (CONST_MIN_ROOT_SIZE ≤ 20 * GiB ≤ 20 * GiB)%Z).
Proof.
  assert (Hrun : ask_root_size (20 * GiB) true (Some float_one) upgrade_world
    = (Ret (20 * GiB)%Z, with_advisory (20 * GiB) upgrade_world))
    by reflexivity.
  split; [exact Hrun|].
  exact (ask_root_size_bounds _ _ _ _ _ _ Hrun).
Defined.

(** X7.  A request that converts to a size between the minimum root size
    and the available space is honoured as it is in non-interactive mode:
    that size is returned and nothing is printed. *)
Theorem ask_root_size_in_range (available_space : Z) (size : float)
    (root_size : Z) (w : World) :
  int_of_float (fmul size float_2_30) = inr root_size →
  (CONST_MIN_ROOT_SIZE ≤ root_size ≤ available_space)%Z →
  ask_root_size available_space true (Some size) w = (Ret root_size, w).
Proof.
  intros Hbytes [Hlow Hhigh]. unfold ask_root_size.
  assert (Htruthy : truthy_float size = true).
  { destruct size as [s| | |]; try done.
    simpl in Hbytes. injection Hbytes as <-. by compute in Hlow. }
  rewrite Htruthy, bind_run. unfold gb_to_bytes. rewrite Hbytes. simpl.
  assert (Hcond : ((root_size <? CONST_MIN_ROOT_SIZE)
                   || (root_size >? available_space))%Z = false).
  { apply orb_false_iff. split; [by apply Z.ltb_ge|].
    rewrite Z.gtb_ltb. by apply Z.ltb_ge. }
  by rewrite Hcond.
Qed.

Lemma ask_root_size_in_range_witness :
  int_of_float (fmul (S754_finite false (2 ^ 52) (-49)) float_2_30)
    = inr (8 * GiB)%Z ∧
  (CONST_MIN_ROOT_SIZE ≤ 8 * GiB ≤ 20 * GiB)%Z ∧
  ask_root_size (20 * GiB) true (Some (S754_finite false (2 ^ 52) (-49)))
    upgrade_world = (Ret (8 * GiB)%Z, upgrade_world).
Proof.
  assert (Hbytes :
    int_of_float (fmul (S754_finite false (2 ^ 52) (-49)) float_2_30)
      = inr (8 * GiB)%Z) by reflexivity.
  assert (Hrange : (CONST_MIN_ROOT_SIZE ≤ 8 * GiB ≤ 20 * GiB)%Z)
    by (split; discriminate).
  split; [exact Hbytes|]. split; [exact Hrange|].
  exact (ask_root_size_in_range (20 * GiB) _ _ upgrade_world Hbytes Hrange).
Defined.

End RootSizeMore.

Module CleanupMore.
Import Py Sys Run Installer Helpers Obs Rel Logic Steps Frame Scenario.

Lemma raises_weaken {A} (P Q : exn → Prop) (m : M A) :
  (∀ e, P e → Q e) → raises_only P m → raises_only Q m.
Proof.
  intros Hsub Hm w. specialize (Hm w).
  destruct (m w).1; [done | by apply Hsub].
Qed.

(** X8.  cleanup lets no failure of an unmount or of a removal escape:
    whatever it is given, it returns or is interrupted, and never ends
    with an exception that derives from [Exception]. *)
Theorem cleanup_only_interrupt_escapes (mounts remove_items : list string) :
  raises_only (λ e, e = KeyboardInterrupt) (cleanup mounts remove_items).
Proof. unfold cleanup. rs. Qed.

Lemma mount_count_remove_other mp x l :
  x ≠ mp → mount_count mp (remove_first x l) = mount_count mp l.
Proof.
  intros Hne. induction l as [|y l IH]; [done|]. simpl.
  destruct (String.eqb_spec y x) as [->|Hyx].
  - destruct (String.eqb_spec x mp) as [->|_]; done.
  - simpl. by rewrite IH.
Qed.

Lemma mount_count_remove mp x l :
  mount_count mp (remove_first x l) =
  mount_count mp l - (if String.eqb x mp then 1 else 0).
Proof.
  destruct (String.eqb_spec x mp) as [->|Hne].
  - rewrite Cleanup.mount_count_remove_first. lia.
  - rewrite mount_count_remove_other by done. lia.
Qed.

(** One round of the [for mount in mounts] loop, when the oracle lets the
    unmount through: it returns, and one mount at the mount point is gone
    if there was one. *)
Lemma umount_round (mount : string) (w : World) :
  umounts_ok (env w) →
  ∃ w',
    try_except (call (PartitionUmount mount))
      (λ err, print (Text ("Failed to umount " +:+ mount +:+ ": " +:+ err))) w
    = (Ret tt, w') ∧
    env w' = env w ∧
    ∀ mp, mount_count mp (mounted w') =
          mount_count mp (mounted w) - (if String.eqb mount mp then 1 else 0).
Proof.
  intros Hok. unfold try_except, call. rewrite Hok.
  unfold call_refused. cbn [mounted set_clock].
  case_bool_decide as Hin.
  - eexists. split; [reflexivity|]. split; [reflexivity|].
    intros mp. cbn [mounted set_trace call_effect set_mounted set_clock].
    apply mount_count_remove.
  - eexists. split; [reflexivity|]. split; [reflexivity|].
    intros mp. cbn [mounted set_output set_clock].
    destruct (String.eqb_spec mount mp) as [<-|Hne]; [|lia].
    rewrite Cleanup.mount_count_absent by done. lia.
Qed.

Lemma umount_loop (mounts : list string) (w : World) :
  umounts_ok (env w) →
  ∃ w',
    for_each mounts (λ mount,
      try_except (call (PartitionUmount mount))
        (λ err, print (Text ("Failed to umount " +:+ mount +:+ ": " +:+ err))))
      w = (Ret tt, w') ∧
    env w' = env w ∧
    ∀ mp, mount_count mp (mounted w') =
          mount_count mp (mounted w) - mount_count mp mounts.
Proof.
  revert w. induction mounts as [|mount rest IH]; intros w Hok.
  - exists w. split; [done|]. split; [done|]. intros mp. simpl. lia.
  - destruct (umount_round mount w Hok) as (w1 & Hrun & Henv & Hcount).
    destruct (IH w1) as (w2 & Hrest & Henv2 & Hcount2); [by rewrite Henv|].
    exists w2. cbn [for_each]. rewrite bind_run, Hrun.
    split; [exact Hrest|]. split; [congruence|].
    intros mp. rewrite Hcount2, Hcount. cbn [mount_count].
    destruct (String.eqb mount mp); lia.
Qed.

(** X9.  When the oracle lets every unmount through, cleanup releases, for
    each mount point, as many mounts as the list names it, as far as
    there are any; a mount point that is not mounted costs a logged
    failure and nothing else. *)
Theorem cleanup_unmounts (mounts remove_items : list string) (w : World)
    (mp : string) :
  umounts_ok (env w) →
  mount_count mp (mounted (cleanup mounts remove_items w).2) =
  mount_count mp (mounted w) - mount_count mp mounts.
Proof.
  intros Hok. unfold cleanup. cbv zeta. rewrite print_bind, bind_run.
  destruct (umount_loop mounts (set_output (output w ++ [Text "Cleaning up"]) w))
    as (w1 & -> & Henv & Hcount); [exact Hok|].
  cbn [mounted set_output] in Hcount. rewrite <- Hcount.
  match goal with
  | |- context [(?m w1).2] =>
      assert (Hm : relates (same mounted) m) by rel;
      specialize (Hm w1); unfold same in Hm; by rewrite Hm
  end.
Qed.

Lemma cleanup_unmounts_witness :
  umounts_ok (env mounted_world) ∧
  mount_count "/mnt/iso" (mounted mounted_world) = 1 ∧
  mount_count "/mnt/iso"
    (mounted (cleanup ["/mnt/iso"; "/mnt/iso"] [] mounted_world).2)
  = 1 - 2.
Proof.
  assert (Hok : umounts_ok (env mounted_world)) by (intros n mp; reflexivity).
  split; [exact Hok|]. split; [reflexivity|].
  exact (cleanup_unmounts ["/mnt/iso"; "/mnt/iso"] [] mounted_world
           "/mnt/iso" Hok).
Defined.

Lemma lookup_path_remove_path p f : lookup_path p (remove_path p f) = None.
Proof.
  unfold remove_path. induction f as [|[q k] f IH]; [done|]. simpl.
  destruct (String.eqb q p) eqn:E; simpl; [done|]. by rewrite E.
Qed.

Lemma lookup_path_remove_tree p f : lookup_path p (remove_tree p f) = None.
Proof.
  unfold remove_tree. induction f as [|[q k] f IH]; [done|]. simpl.
  destruct (String.eqb q p) eqn:E; simpl; [done|].
  destruct (String.prefix _ q); simpl; [done|]. by rewrite E.
Qed.

(** X10.  When cleanup is given nothing to remove and returns, and the
    oracle lets the removal through, the installation directory does not
    exist afterwards, whether it was a directory, a file or absent. *)
Theorem cleanup_removes_installation (mounts : list string) (w w' : World) :
  removal_ok (env w) →
  cleanup mounts [] w = (Ret tt, w') →
  path_exists DIR_INSTALLATION w' = false.
Proof.
  intros Hok H. unfold cleanup in H. cbv beta zeta iota in H.
  rewrite print_bind in H.
  apply bind_Ret_inv in H as ([] & w1 & Hloop & H).
  assert (Hq : both (same env) (same fs) w w1).
  { match type of Hloop with
    | ?m ?w0 = _ =>
        assert (Hm : relates (both (same env) (same fs)) m) by rel;
        specialize (Hm w0); by rewrite Hloop in Hm
    end. }
  destruct Hq as [Henv Hfs]. unfold same in Henv, Hfs. cbn in Henv, Hfs.
  cbn [for_each] in H.
  apply bind_Ret_inv in H as ([] & w2 & Hbody & [= <-]).
  unfold try_except in Hbody. rewrite query_bind in Hbody.
  destruct (Hok (clock w1)) as [Hrmtree Hunlink].
  unfold path_exists in *.
  destruct (lookup_path DIR_INSTALLATION (fs w1)) as [k|] eqn:Hlook.
  - rewrite query_bind in Hbody. unfold path_is_file in Hbody.
    rewrite Hlook in Hbody.
    destruct k; unfold call in Hbody; rewrite Henv in Hbody.
    + rewrite Hunlink in Hbody. cbn [call_refused] in Hbody.
      injection Hbody as <-.
      cbn [fs set_trace set_fs set_clock call_effect].
      by rewrite lookup_path_remove_path.
    + rewrite Hrmtree in Hbody. cbn [call_refused] in Hbody.
      injection Hbody as <-.
      cbn [fs set_trace set_fs set_clock call_effect].
      by rewrite lookup_path_remove_tree.
  - injection Hbody as <-. by rewrite Hlook.
Qed.

Lemma cleanup_removes_installation_witness :
  removal_ok (env littered_world) ∧
  cleanup [] [] littered_world
    = (Ret tt, (cleanup [] [] littered_world).2) ∧
  path_exists DIR_INSTALLATION littered_world = true ∧
  path_exists DIR_INSTALLATION (cleanup [] [] littered_world).2 = false.
Proof.
  assert (Hok : removal_ok (env littered_world))
    by (intros n; split; reflexivity).
  assert (Hrun : cleanup [] [] littered_world
                 = (Ret tt, (cleanup [] [] littered_world).2))
    by (vm_compute; reflexivity).
  split; [exact Hok|]. split; [exact Hrun|]. split; [reflexivity|].
  exact (cleanup_removes_installation [] littered_world _ Hok Hrun).
Defined.

End CleanupMore.

Module InstallMore.
Import Py Sys Run Installer Helpers Obs Rel Logic Steps Frame Scenario.

(** One statement of a workflow that returned, when it changes nothing
    that [settled] watches. *)
Ltac step_settled H :=
  let a := fresh "a" in
  let w1 := fresh "w" in
  let Hm := fresh "Hm" in
  apply bind_Ret_inv in H as (a & w1 & Hm & H);
  match type of Hm with
  | ?m ?w0 = _ =>
      let HR := fresh "HR" in
      assert (HR : relates settled m) by (unfold settled; rel);
      specialize (HR w0); rewrite Hm in HR;
      unfold settled, both, same in HR; cbn [snd] in HR;
      destruct HR as (? & ? & ? & ? & ?); clear Hm
  end.

Ltac last_settled H :=
  match type of H with
  | ?m ?w0 = _ =>
      let HR := fresh "HR" in
      assert (HR : relates settled m) by (unfold settled; rel);
      specialize (HR w0); rewrite H in HR;
      unfold settled, both, same in HR; cbn [snd] in HR;
      destruct HR as (? & ? & ? & ? & ?); clear H
  end.

Ltac step_query H :=
  let a := fresh "a" in
  let w1 := fresh "w" in
  let Hm := fresh "Hm" in
  apply bind_Ret_inv in H as (a & w1 & Hm & H);
  apply query_Ret_inv in Hm as [-> ->].

Lemma call_Ret_fields (c : ext_call) (w w' : World) :
  call c w = (Ret tt, w') →
  env w' = env w ∧
  mounted w' = mounted (call_effect c w) ∧
  grub_default w' = grub_default (call_effect c w) ∧
  grub_versions w' = grub_versions (call_effect c w) ∧
  grub_console w' = grub_console (call_effect c w).
Proof.
  intros H. apply call_Ret_inv in H. subst w'.
  destruct c; repeat split; reflexivity.
Qed.

(** One primitive call of a workflow that returned. *)
Ltac step_call H :=
  let w1 := fresh "w" in
  let Hm := fresh "Hm" in
  apply bind_Ret_inv in H as ([] & w1 & Hm & H);
  apply call_Ret_fields in Hm as (? & ? & ? & ? & ?);
  cbn [call_effect mounted grub_default grub_versions grub_console
       set_mounted set_grub_default set_grub_versions set_grub_console] in *.

Ltac step_ret H :=
  let w1 := fresh "w" in
  let Hm := fresh "Hm" in
  apply bind_Ret_inv in H as ([] & w1 & Hm & H);
  injection Hm as <-.

Ltac chain_fields :=
  repeat match goal with
         | Heq : env ?x = _ |- _ => is_var x; rewrite Heq in *; clear Heq
         | Heq : mounted ?x = _ |- _ => is_var x; rewrite Heq in *; clear Heq
         | Heq : grub_default ?x = _ |- _ =>
             is_var x; rewrite Heq in *; clear Heq
         | Heq : grub_versions ?x = _ |- _ =>
             is_var x; rewrite Heq in *; clear Heq
         | Heq : grub_console ?x = _ |- _ =>
             is_var x; rewrite Heq in *; clear Heq
         end.


Lemma remove_first_head mp m : remove_first mp (mp :: m) = m.
Proof. simpl. by rewrite String.eqb_refl. Qed.

Lemma name_choice_inv (image_name : option string) (w w1 : World) a :
  (if truthy_str image_name then mret (default "" image_name)
   else ask (λ e, get_default_image_name e
                    (default "unknown" (vd_version (get_version_data e)))))
    w = (Ret a, w1) →
  a = install_name_of (env w) image_name ∧ w1 = w.
Proof.
  unfold install_name_of. destruct (truthy_str image_name).
  - by intros [= <- <-].
  - intros H. by apply query_Ret_inv in H.
Qed.

Lemma effective_console_model console_type :
  (if bool_decide (console_type ∈ ["kvm"; "serial"]) then console_type
   else "kvm") = effective_console console_type.
Proof.
  unfold effective_console. apply (f_equal (λ b : bool, if b then _ else _)).
  apply bool_decide_ext. rewrite elem_of_cons, list_elem_of_singleton. done.
Qed.

(** What a returned install has done to the mount table and to the
    bootloader configuration. *)
Lemma install_image_returned no_prompt target_disk vyos_password root_size_gb
    image_name set_default console_type (w w' : World) :
  install_image no_prompt target_disk vyos_password root_size_gb image_name
    set_default console_type w = (Ret tt, w') →
  env w' = env w ∧
  mounted w' = mounted w ∧
  grub_versions w' =
    (DIR_INSTALLATION, install_name_of (env w) image_name)
      :: grub_versions w ∧
  grub_console w' =
    (DIR_INSTALLATION, effective_console console_type) :: grub_console w ∧
  grub_default w' =
    default_after_install set_default (install_name_of (env w) image_name)
      (grub_default w).
Proof.
  intros H. unfold install_image, find_persistence in H.
  cbv beta zeta iota in H. rewrite effective_console_model in H.
  step_query H. step_settled H. step_settled H. step_query H.
  step_settled H. step_query H. step_settled H. step_settled H.
  step_settled H. step_settled H. step_settled H. step_settled H.
  step_query H. step_settled H. step_settled H. step_settled H.
  step_settled H. step_settled H. step_settled H. step_settled H.
  step_call H. step_settled H. step_call H.
  apply bind_Ret_inv in H as (name & wn & Hname & H).
  apply name_choice_inv in Hname as [-> ->].
  step_settled H. step_settled H. step_settled H. step_query H.
  destruct (truthy_str _) eqn:Hiso.
  - step_call H. step_settled H. step_query H. step_settled H.
    step_settled H. step_call H. step_call H.
    destruct set_default.
    + step_call H. step_settled H. step_call H. step_call H. step_call H.
      step_settled H. last_settled H.
      unfold default_after_install. chain_fields.
      rewrite !remove_first_head. done.
    + step_ret H. step_settled H. step_call H. step_call H. step_call H.
      step_settled H. last_settled H.
      unfold default_after_install. chain_fields.
      rewrite !remove_first_head. done.
  - step_ret H. step_settled H. step_query H. step_settled H.
    step_settled H. step_call H. step_call H.
    destruct set_default.
    + step_call H. step_settled H. step_ret H. step_call H. step_call H.
      step_settled H. last_settled H.
      unfold default_after_install. chain_fields.
      rewrite !remove_first_head. done.
    + step_ret H. step_settled H. step_ret H. step_call H. step_call H.
      step_settled H. last_settled H.
      unfold default_after_install. chain_fields.
      rewrite !remove_first_head. done.
Qed.

(** X11.  An install that returns leaves the mount table exactly as it
    found it: the installation root, its [boot/efi] and, when a
    persistence device was found, the source mount point are all released
    again. *)
Theorem install_image_releases_mounts no_prompt target_disk vyos_password
    root_size_gb image_name set_default console_type (w w' : World) :
  install_image no_prompt target_disk vyos_password root_size_gb image_name
    set_default console_type w = (Ret tt, w') →
  mounted w' = mounted w.
Proof. intros H. by apply install_image_returned in H as (_ & ? & _). Qed.

Lemma install_image_releases_mounts_witness :
  install_image true None (Some "vyos") None None true "vga"
    (live_world quiet) = (Ret tt, install_with_vga.2) ∧
  mounted install_with_vga.2 = mounted (live_world quiet).
Proof.
  assert (Hrun : install_image true None (Some "vyos") None None true "vga"
                   (live_world quiet) = (Ret tt, install_with_vga.2))
    by (vm_compute; reflexivity).
  split; [exact Hrun|].
  exact (install_image_releases_mounts _ _ _ _ _ _ _ _ _ Hrun).
Defined.

(** X12.  An install that returns has registered exactly one image under
    the installation root, named as asked or, when no name is given,
    after the running version; it has configured the console type asked
    for when that is [kvm] or [serial] and [kvm] otherwise; and it has
    made the image the default there exactly when [set_default] holds. *)
Theorem install_image_registers no_prompt target_disk vyos_password
    root_size_gb image_name set_default console_type (w w' : World) :
  install_image no_prompt target_disk vyos_password root_size_gb image_name
    set_default console_type w = (Ret tt, w') →
  grub_versions w' =
    (DIR_INSTALLATION, install_name_of (env w) image_name)
      :: grub_versions w ∧
  grub_console w' =
    (DIR_INSTALLATION, effective_console console_type) :: grub_console w ∧
  grub_default w' =
    default_after_install set_default (install_name_of (env w) image_name)
      (grub_default w).
Proof. intros H. by apply install_image_returned in H as (_ & _ & ?). Qed.

Lemma install_image_registers_witness :
  install_image true None (Some "vyos") None None true "vga"
    (live_world quiet) = (Ret tt, install_with_vga.2) ∧
  grub_versions install_with_vga.2 = [("/mnt/installation", "vyos-1.4")] ∧
  grub_console install_with_vga.2 = [("/mnt/installation", "kvm")] ∧
  grub_default install_with_vga.2 = [("/mnt/installation", "vyos-1.4")].
Proof.
  assert (Hrun : install_image true None (Some "vyos") None None true "vga"
                   (live_world quiet) = (Ret tt, install_with_vga.2))
    by (vm_compute; reflexivity).
  split; [exact Hrun|].
  exact (install_image_registers _ _ _ _ _ _ _ _ _ Hrun).
Defined.



(** X14.  On a live system without any disk install_image exits with the
    no-disk message before it calls a single primitive: all it has done
    is print. *)
Theorem install_image_needs_disk no_prompt target_disk vyos_password
    root_size_gb image_name set_default console_type (w : World) :
  is_live_boot (env w) = true →
  disks_size (env w) = [] →
  ∃ printed,
    install_image no_prompt target_disk vyos_password root_size_gb image_name
      set_default console_type w
    = (Raise (SystemExit (Some MSG_ERR_NO_DISK)), set_output printed w).
Proof.
  intros Hlive Hdisks. unfold install_image.
  rewrite ask_bind, Hlive, ret_bind, print_bind, ask_bind.
  destruct (vd_memory_total (get_version_data (env _))) as [total|].
  - destruct (negb (total =? 0)%Z && (total <? 4294967296)%Z).
    + rewrite print_bind, ask_bind. cbn [env set_output].
      rewrite Hdisks, exit_bind. by eexists.
    + rewrite ret_bind, ask_bind. cbn [env set_output].
      rewrite Hdisks, exit_bind. by eexists.
  - rewrite ret_bind, ask_bind. cbn [env set_output].
    rewrite Hdisks, exit_bind. by eexists.
Qed.

Lemma install_image_needs_disk_witness :
  is_live_boot (env diskless_world) = true ∧
  disks_size (env diskless_world) = [] ∧
  ∃ printed,
    install_image true None (Some "vyos") None None true "kvm" diskless_world
    = (Raise (SystemExit (Some MSG_ERR_NO_DISK)),
       set_output printed diskless_world).
Proof.
  split; [reflexivity|]. split; [reflexivity|].
  exact (install_image_needs_disk true None (Some "vyos") None None true "kvm"
           diskless_world eq_refl eq_refl).
Defined.

End InstallMore.

(** ** The console type of an install *)

Module Console.
Import Py Sys Run Installer Helpers Obs Rel Logic Steps Frame Scenario.
Import InstallMore.

Global Instance no_console_warning_preorder : PreOrder no_console_warning.
Proof.
  split.
  - intros w. exists []. split; [by rewrite app_nil_r | apply not_elem_of_nil].
  - intros x y z (p1 & Hxy & H1) (p2 & Hyz & H2). exists (p1 ++ p2)%list.
    split; [by rewrite Hyz, Hxy, app_assoc|].
    rewrite elem_of_app. tauto.
Qed.

Lemma no_console_warning_same w w' :
  output w' = output w → no_console_warning w w'.
Proof.
  intros Hout. exists []. split; [by rewrite app_nil_r | apply not_elem_of_nil].
Qed.

Lemma no_console_warning_clock w n : no_console_warning w (set_clock n w).
Proof. by apply no_console_warning_same. Qed.

Lemma no_console_warning_call c w t :
  no_console_warning w (set_trace t (call_effect c w)).
Proof. apply no_console_warning_same. by destruct c. Qed.

Lemma no_console_warning_print (l : line) w :
  l ≠ Text MSG_WARN_CONSOLE_TYPE_INVALID →
  no_console_warning w (set_output (output w ++ [l])%list w).
Proof.
  intros Hl. exists [l]. split; [done|].
  rewrite list_elem_of_singleton. congruence.
Qed.

Lemma relates_print_line (R : relation World) (l : line) :
  (∀ w, R w (set_output (output w ++ [l])%list w)) → relates R (print l).
Proof. intros Hout w. apply Hout. Qed.

#[local] Hint Resolve no_console_warning_clock no_console_warning_call : frame.

(** A line that is not the warning. *)
Ltac other_line :=
  first
    [ discriminate
    | let Hs := fresh in intros [= Hs]; vm_compute in Hs; discriminate Hs ].

Ltac quiet_step :=
  lazymatch goal with
  | |- relates _ (print _) =>
      apply relates_print_line; intros; apply no_console_warning_print;
      other_line
  | |- _ => rel_step
  end.

Ltac quiet := repeat (intros; cbv beta zeta iota; quiet_step).




End Console.

Module AddMore.
Import Py Sys Run Installer Helpers Obs Rel Logic Steps Frame Scenario.
Import NamingMore DefaultPointer CleanupMore.





(** What the [try] block has done to the registry when it returns in
    interactive mode. *)
Lemma add_image_body_registers_interactive iso_path w w' :
  add_image_body iso_path false w = (Ret tt, w') →
  env w' = env w ∧
  grub_versions w' =
    (root_dir_of (env w), new_image_name_of (env w)) :: grub_versions w.
Proof.
  intros H. unfold add_image_body in H. cbv beta zeta iota in H.
  step_rel H. step_rel H. step_ask H. step_ask H. step_ask H.
  step_rel H. step_ask H. step_rel H. step_rel H. step_rel H. step_rel H.
  step_ask H. step_rel H.
  apply bind_Ret_inv in H as ([] & wv & Hadd & H).
  apply call_Ret_inv in Hadd.
  last_rel H.
  unfold same in *. subst wv. simpl in *. clear H.
  unfold new_image_name_of, root_dir_of.
  chain_eqs. done.
Qed.

(** X17.  In either mode, an add_image that returns has registered exactly
    one new image, under a name that no installed image had. *)
Theorem add_image_registers_fresh image_path vrf username password no_prompt
    force (w w' : World) :
  add_image image_path vrf username password no_prompt force w
    = (Ret tt, w') →
  grub_versions w' =
    (root_dir_of (env w), new_image_name_of (env w)) :: grub_versions w ∧
  (new_image_name_of (env w) ∉ get_images (env w)).
Proof.
  intros H. split; [|apply resolve_name_not_installed].
  unfold add_image in H. cbv beta zeta iota in H.
  step_ask H. step_rel H. step_rel H. step_rel H.
  step_ask H. step_rel H. step_rel H. step_ask H. step_rel H.
  apply try_finally_Ret_inv in H as (wb & Hbody & Hfinal).
  apply try_except_Ret_inv in Hbody; [|intros; apply exit_never_returns].
  match type of Hbody with
  | add_image_body _ _ ?w0 = _ =>
      assert (Hreg : env wb = env w0 ∧ grub_versions wb =
        (root_dir_of (env w0), new_image_name_of (env w0))
          :: grub_versions w0)
  end.
  { destruct no_prompt.
    - by apply add_image_body_sets_default in Hbody as (? & ? & _).
    - by apply add_image_body_registers_interactive in Hbody. }
  destruct Hreg as [Henv Hversions].
  last_rel Hfinal. unfold same in *. chain_eqs. done.
Qed.

Lemma add_image_registers_fresh_witness :
  add_image "/tmp/new.iso" None "" "" true false upgrade_world
    = (Ret tt, upgrade_from_file.2) ∧
  grub_versions upgrade_from_file.2 =
    (root_dir_of (env upgrade_world), new_image_name_of (env upgrade_world))
      :: grub_versions upgrade_world ∧
  (new_image_name_of (env upgrade_world) ∉ get_images (env upgrade_world)).
Proof.
  assert (Hrun : add_image "/tmp/new.iso" None "" "" true false upgrade_world
                 = (Ret tt, upgrade_from_file.2)) by (vm_compute; reflexivity).
  split; [exact Hrun|].
  exact (add_image_registers_fresh _ _ _ _ _ _ _ _ Hrun).
Defined.

Global Instance other_mounts_kept_preorder : PreOrder other_mounts_kept.
Proof.
  split; [by intros w mp _|].
  intros x y z Hxy Hyz mp Hne. by rewrite Hyz, Hxy.
Qed.

Lemma other_mounts_kept_call c w t :
  spares_other_mounts c = true →
  other_mounts_kept w (set_trace t (call_effect c w)).
Proof.
  intros Hc mp Hne.
  destruct c; cbn [spares_other_mounts call_effect mounted set_trace
                   set_mounted set_fs set_grub_default set_grub_versions
                   set_grub_console] in *; try done.
  - apply String.eqb_eq in Hc as ->. cbn [mount_count].
    by destruct (String.eqb_spec DIR_ISO_MOUNT mp).
  - apply String.eqb_eq in Hc as ->.
    by apply mount_count_remove_other.
Qed.

Lemma other_mounts_kept_clock w n : other_mounts_kept w (set_clock n w).
Proof. by intros mp _. Qed.

Lemma other_mounts_kept_output w o : other_mounts_kept w (set_output o w).
Proof. by intros mp _. Qed.

#[local] Hint Resolve other_mounts_kept_clock other_mounts_kept_output : frame.
#[local] Hint Extern 1 (other_mounts_kept _ (set_trace _ (call_effect _ _))) =>
  apply other_mounts_kept_call; reflexivity : frame.

(** X22.  However it ends, add_image leaves every mount point other than
    the source mount point mounted exactly as often as before, and does
    not touch the console configuration of the bootloader. *)
Theorem add_image_touches_only_source_mount image_path vrf username password
    no_prompt force (w : World) (mp : string) :
  mp ≠ DIR_ISO_MOUNT →
  mount_count mp
    (mounted (add_image image_path vrf username password no_prompt force w).2)
  = mount_count mp (mounted w) ∧
  grub_console (add_image image_path vrf username password no_prompt force w).2
  = grub_console w.
Proof.
  intros Hne. split.
  - assert (Hm : relates other_mounts_kept
                   (add_image image_path vrf username password no_prompt force))
      by (unfold add_image; rel).
    by apply Hm.
  - assert (Hm : relates (same grub_console)
                   (add_image image_path vrf username password no_prompt force))
      by (unfold add_image; rel).
    apply Hm.
Qed.

Lemma add_image_touches_only_source_mount_witness :
  "/mnt/data" ≠ DIR_ISO_MOUNT ∧
  mount_count "/mnt/data"
    (mounted (add_image "/tmp/new.iso" None "" "" true false mounted_world).2)
  = 1 ∧
  grub_console (add_image "/tmp/new.iso" None "" "" true false mounted_world).2
  = [("/", "kvm")].
Proof.
  assert (Hne : "/mnt/data" ≠ DIR_ISO_MOUNT) by discriminate.
  split; [exact Hne|].
  exact (add_image_touches_only_source_mount "/tmp/new.iso" None "" "" true
           false mounted_world "/mnt/data" Hne).
Defined.

End AddMore.

Module EntryMore.
Import Py Sys Run Installer Helpers Obs Rel Logic Steps Frame Scenario.
Import CleanupMore DefaultPointer.

(** X18.  What parse_arguments lets through: it changes nothing in the
    world; for [install] it returns the namespace with [no_prompt] forced
    on and nothing else changed; for [add] it returns the namespace as it
    is when an image path is given, and exits with its message when the
    path is missing or empty. *)
Theorem parse_arguments_validates (args : Args) (w : World) :
  (parse_arguments args w).2 = w ∧
  match (parse_arguments args w).1 with
  | Ret parsed =>
      (action args = Install ∧ parsed = set_no_prompt true args) ∨
      (action args = Add ∧ truthy_str (image_path args) = true ∧
       parsed = args)
  | Raise e =>
      action args = Add ∧ truthy_str (image_path args) = false ∧
      e = SystemExit (Some "A path to image is required for add action")
  end.
Proof.
  unfold parse_arguments. destruct (action args) eqn:Haction.
  - split; [done|]. simpl. by left.
  - destruct (truthy_str (image_path args)) eqn:Hpath.
    + split; [done|]. simpl. by right.
    + split; done.
Qed.

(** X19.  For [--action install] the [--no-prompt] flag is immaterial: the
    entry point behaves the same with and without it. *)
Theorem main_install_no_prompt_immaterial (argv : Args) (b : bool)
    (w : World) :
  action argv = Install →
  main (set_no_prompt b argv) w = main argv w.
Proof.
  intros Haction. unfold main, try_except_interrupt.
  rewrite !bind_run.
  rewrite (parse_arguments_install argv) by exact Haction.
  rewrite (parse_arguments_install (set_no_prompt b argv)) by exact Haction.
  reflexivity.
Qed.

Lemma main_install_no_prompt_immaterial_witness :
  action install_args = Install ∧
  main (set_no_prompt true install_args) (live_world quiet)
  = main install_args (live_world quiet).
Proof.
  split; [reflexivity|].
  exact (main_install_no_prompt_immaterial install_args true
           (live_world quiet) eq_refl).
Defined.

Lemma then_exit_raises {A} (m : M A) (arg : option string) (w : World) :
  raises_only not_an_error m →
  match ((m ≫= λ _, exit (A:=unit) arg) w).1 with
  | Ret _ => False
  | Raise e => not_an_error e
  end.
Proof.
  intros Hm. rewrite bind_run. specialize (Hm w).
  destruct (m w) as [[a|e] w1]; simpl in *; done.
Qed.

Lemma then_exit_never_returns {A B} (m : M A) (arg : option string)
    (w w' : World) (b : B) :
  (m ≫= λ _, exit arg) w ≠ (Ret b, w').
Proof. rewrite bind_run. destruct (m w) as [[a|e] w1]; done. Qed.

(** X20.  The entry point always ends the process itself: it never
    returns and never lets an exception that derives from [Exception]
    escape; it ends in [sys.exit], or in the interrupt when that arrives
    again during the cleanup of the first. *)
Theorem main_always_exits (argv : Args) (w : World) :
  match (main argv w).1 with
  | Ret _ => False
  | Raise e => not_an_error e
  end.
Proof.
  unfold main, try_except_interrupt.
  match goal with
  | |- context [match ?body w with _ => _ end] =>
      destruct (body w) as [[[]|[|arg|msg]] w1] eqn:Hbody
  end.
  - apply bind_Ret_inv in Hbody as (args & w0 & _ & Hbody).
    by apply then_exit_never_returns in Hbody.
  - rewrite print_bind. apply (then_exit_raises (cleanup [] []) None).
    eapply (raises_weaken (λ e, e = KeyboardInterrupt));
      [by intros ? -> | unfold cleanup; rs].
  - done.
  - done.
Qed.

End EntryMore.

Module KnownHosts.
Import Py Sys Run Installer Helpers Obs Rel Logic Steps Frame.

(** X21.  migrate_known_hosts never fails: whatever its collaborators
    answer or raise, it returns or is interrupted, a failure being printed
    as a warning; and it leaves the mount table and the bootloader
    configuration alone. *)
Theorem migrate_known_hosts_never_fails get_local_users get_user_home_dir
    target_dir :
  raises_only (λ e, e = KeyboardInterrupt)
    (migrate_known_hosts get_local_users get_user_home_dir target_dir) ∧
  relates settled
    (migrate_known_hosts get_local_users get_user_home_dir target_dir).
Proof.
  unfold migrate_known_hosts, reply. split.
  - rs.
  - unfold settled. rel.
Qed.

End KnownHosts.
